(** * AirVision: the data cleaning and analysis pipeline

    A shallow embedding of [data_processing.py] and [analysis.py].

    A pandas DataFrame is an ordered list of named columns.  A column
    carries its dtype: float64/int64 data is [Numeric], with NaN as
    [None]; object data (strings) is [Text]; [Categorical] is the
    category dtype that the Temporal Aggregator creates.  A datetime64
    column such as DateTime is carried as [Text], in its printed form:
    no stage computes with it, and like object data it is not a number
    dtype.  Readings are rationals: the arithmetic of the source is
    modelled exactly, without the rounding of float64.  Row labels are
    positions (the RangeIndex that [read_csv] produces), so aligning two
    columns of one table is positional. *)

From Stdlib Require Import QArith Qabs Lia Ascii String.
From Stdlib Require Import Reals Qreals Lra Lqa.
From Stdlib Require Import Sorted.
From stdpp Require Import base list strings gmap.

Local Open Scope string_scope.

(** ** DataFrames *)

Inductive column :=
| Numeric (v : list (option Q))
| Text (v : list (option string))
| Categorical (categories : list string) (v : list (option string)).

Abbreviation table := (list (string * column)).

Definition column_length (c : column) : nat :=
  match c with
  | Numeric v => length v
  | Text v => length v
  | Categorical _ v => length v
  end.

(** [df.columns] *)
Definition columns (df : table) : list string := fmap fst df.

(** [name in df.columns] *)
Definition has_column (name : string) (df : table) : bool :=
  bool_decide (name ∈ columns df).

(** [df[name]], as an option: [None] is the KeyError of pandas. *)
Fixpoint get_column {C} (name : string) (df : list (string * C)) : option C :=
  match df with
  | [] => None
  | (k, c) :: rest => if String.eqb k name then Some c else get_column name rest
  end.

(** [df[name] = c] for a column [c] that has the rows of [df]: an
    existing column is replaced where it stands, a new one is appended. *)
Fixpoint set_column {C} (name : string) (c : C) (df : list (string * C))
  : list (string * C) :=
  match df with
  | [] => [(name, c)]
  | (k, old) :: rest =>
      if String.eqb k name then (k, c) :: rest
      else (k, old) :: set_column name c rest
  end.

(** The number of rows (the length of the index).  A frame without
    columns is [pd.DataFrame()], whose index is empty. *)
Definition nrows (df : table) : nat :=
  match df with
  | [] => 0
  | (_, c) :: _ => column_length c
  end.

(** ** Exceptions *)

Inductive exn_kind := KeyError | ValueError | TypeError | PlainException.

Record exn := { kind : exn_kind; message : string }.

Inductive outcome (A : Type) :=
| Returns (a : A)
| Raises (e : exn).
Arguments Returns {A} a.
Arguments Raises {A} e.

(** Sequencing: an exception skips the rest.  With these instances
    [x ← m; k] is the notation of stdpp. *)
#[global] Instance outcome_ret : MRet outcome := fun A a => Returns a.
#[global] Instance outcome_bind : MBind outcome := fun A B f m =>
  match m with
  | Returns a => f a
  | Raises e => Raises e
  end.

(** Runs [f] over a list, left to right, stopping at the first
    exception. *)
Fixpoint map_outcome {A B} (f : A -> outcome B) (l : list A) : outcome (list B) :=
  match l with
  | [] => Returns []
  | a :: rest =>
      b ← f a;
      bs ← map_outcome f rest;
      Returns (b :: bs)
  end.

(** ** data_processing.py *)

(** [col not in ['Date', 'Time']] *)
Definition is_date_or_time (name : string) : bool :=
  bool_decide (name ∈ ["Date"; "Time"]).

(** *** load_and_clean_data *)

(** [str.rstrip(ch)]: drops every trailing [ch]. *)
Fixpoint rstrip (ch : Ascii.ascii) (s : string) : string :=
  match s with
  | EmptyString => EmptyString
  | String c rest =>
      match rstrip ch rest with
      | EmptyString => if Ascii.eqb c ch then EmptyString else String c EmptyString
      | r => String c r
      end
  end.

(** The missing-data code of the data set. *)
Definition sentinel : Q := -200.

(** [series.replace(-200, np.nan)].  A string never equals the number
    -200, so object columns are left as they are. *)
Definition replace_sentinel (c : column) : column :=
  match c with
  | Numeric v =>
      Numeric (fmap (fun cell =>
                      match cell with
                      | Some x => if Qeq_bool x sentinel then None else Some x
                      | None => None
                      end) v)
  | other => other
  end.

(** [df.columns = df.columns.str.rstrip(';')] *)
Definition strip_headers (df : table) : table :=
  fmap (fun '(name, c) => (rstrip ";"%char name, c)) df.

(** [df.loc[:, ~df.columns.str.contains('^Unnamed')]] *)
Definition drop_unnamed (df : table) : table :=
  List.filter (fun '(name, _) => negb (String.prefix "Unnamed" name)) df.

(** The loop of lines 26 to 28. *)
Definition replace_sentinels (df : table) : table :=
  fmap (fun '(name, c) =>
         if is_date_or_time name then (name, c) else (name, replace_sentinel c)) df.

Section Loader.

(** [pd.read_csv(file_path, sep=";", decimal=",")]: the parsed frame,
    or the exception of a missing or malformed file. *)
Variable read_csv : string -> outcome table.

Definition load_and_clean_data (file_path : string) : outcome table :=
  match read_csv file_path with
  | Returns df => Returns (replace_sentinels (drop_unnamed (strip_headers df)))
  | Raises e =>
      Raises {| kind := PlainException;
                message := "Error loading data: " ++ message e |}
  end.

End Loader.

(** *** handle_missing_values *)

(** The nearest valid entry at or after the head of [l], with its
    distance from the head. *)
Fixpoint next_valid (l : list (option Q)) : option (nat * Q) :=
  match l with
  | [] => None
  | Some x :: _ => Some (0, x)
  | None :: rest =>
      match next_valid rest with
      | Some (d, x) => Some (S d, x)
      | None => None
      end
  end.

(** [np.interp] between the valid neighbours [a], [d] rows back, and
    [b], [e] rows ahead: [slope * (x - xp[j]) + fp[j]]. *)
Definition interp (d : nat) (a : Q) (e : nat) (b : Q) : Q :=
  ((b - a) / inject_Z (Z.of_nat (d + e))) * inject_Z (Z.of_nat d) + a.

(** [prev] is the last valid entry before the head of the list, with its
    distance to the head.  Outside the range of the valid entries
    [np.interp] returns the first, respectively the last, of them; a
    column without a valid entry is returned unchanged. *)
Fixpoint interpolate_from (prev : option (nat * Q)) (l : list (option Q))
  : list (option Q) :=
  match l with
  | [] => []
  | Some x :: rest => Some x :: interpolate_from (Some (1, x)) rest
  | None :: rest =>
      let cell :=
        match prev, next_valid rest with
        | Some (d, a), Some (e, b) => Some (interp d a (S e) b)
        | Some (_, a), None => Some a
        | None, Some (_, b) => Some b
        | None, None => None
        end in
      cell :: interpolate_from (option_map (fun '(d, a) => (S d, a)) prev) rest
  end.

(** [series.interpolate(method='linear', limit_direction='both')] *)
Definition interpolate (l : list (option Q)) : list (option Q) :=
  interpolate_from None l.

(** [series.fillna(method='ffill')]: [last] is the latest valid value. *)
Fixpoint ffill_from {A} (last : option A) (l : list (option A)) : list (option A) :=
  match l with
  | [] => []
  | Some x :: rest => Some x :: ffill_from (Some x) rest
  | None :: rest => last :: ffill_from last rest
  end.

Definition ffill {A} (l : list (option A)) : list (option A) := ffill_from None l.

(** [series.fillna(method='bfill')] *)
Fixpoint bfill {A} (l : list (option A)) : list (option A) :=
  match l with
  | [] => []
  | Some x :: rest => Some x :: bfill rest
  | None :: rest =>
      let filled := bfill rest in
      match filled with
      | [] => None :: filled
      | next :: _ => next :: filled
      end
  end.

(** The valid entries of a column ([series.dropna()]). *)
Definition dropna {A} (l : list (option A)) : list A := omap (fun cell => cell) l.

Definition Qsum (l : list Q) : Q := foldr Qplus 0%Q l.

(** [series.mean()]: skips NaN; NaN when nothing is left. *)
Definition mean (l : list (option Q)) : option Q :=
  match dropna l with
  | [] => None
  | vs => Some (Qsum vs / inject_Z (Z.of_nat (length vs)))%Q
  end.

(** [series.fillna(value)], where a NaN [value] fills nothing. *)
Definition fillna (value : option Q) (l : list (option Q)) : list (option Q) :=
  match value with
  | None => l
  | Some m => fmap (fun cell => match cell with Some x => Some x | None => Some m end) l
  end.

(** The fallback chain of one column, lines 52 to 61. *)
Definition impute (v : list (option Q)) : list (option Q) :=
  let v := interpolate v in
  let v := ffill v in
  let v := bfill v in
  fillna (mean v) v.

(** Columns of readings are numeric.  On any other data pandas cannot
    take the mean and raises. *)
Definition impute_column (c : column) : outcome column :=
  match c with
  | Numeric v => Returns (Numeric (impute v))
  | _ => Raises {| kind := TypeError; message := "Could not convert to numeric" |}
  end.

(** [df.copy()] gives the function its own frame: the caller's table is
    the argument, the copy is the value that is returned. *)
Definition handle_missing_values (df : table) : outcome table :=
  map_outcome (fun '(name, c) =>
                 if is_date_or_time name then Returns (name, c)
                 else c' ← impute_column c; Returns (name, c')) df.

(** ** analysis.py *)

(** *** Building a frame column by column

    [calculate_aqi] starts from [pd.DataFrame()], a frame whose index is
    empty, and adds columns with [frame[name] = value].  pandas treats a
    frame without rows specially:
    - a scalar is broadcast over the rows of the frame, so on a frame
      without rows it yields a column without rows;
    - a Series with rows, assigned to a frame without rows, gives the
      frame the index of the Series: the columns already there are
      reindexed to it and hold NaN in every row;
    - otherwise the Series is aligned to the index of the frame. *)

(** [series.reindex(range(n))] *)
Definition reindex {A} (n : nat) (v : list (option A)) : list (option A) :=
  fmap (fun i => mjoin (v !! i)) (seq 0 n).

(** A frame of float columns. *)
Abbreviation numeric_frame := (list (string * list (option Q))).

Definition frame_rows (f : numeric_frame) : nat :=
  match f with
  | [] => 0
  | (_, v) :: _ => length v
  end.

(** [frame[name] = x] for a scalar [x] *)
Definition set_scalar (name : string) (x : Q) (f : numeric_frame) : numeric_frame :=
  set_column name (replicate (frame_rows f) (Some x)) f.

(** [frame[name] = series] *)
Definition set_series (name : string) (series : list (option Q)) (f : numeric_frame)
  : numeric_frame :=
  if (frame_rows f =? 0)%nat && (0 <? length series)%nat then
    set_column name series (fmap (fun '(k, v) => (k, reindex (length series) v)) f)
  else
    set_column name (reindex (frame_rows f) series) f.

(** *** calculate_aqi *)

Definition key_pollutants : list string :=
  ["CO(GT)"; "C6H6(GT)"; "NOx(GT)"; "NO2(GT)"].

Definition Qlt_bool (a b : Q) : bool := negb (Qle_bool b a).

(** [series.max()] and [series.min()]: NaN is skipped, and NaN is the
    result when nothing is left. *)
Definition series_max (v : list (option Q)) : option Q :=
  match dropna v with
  | [] => None
  | x :: xs => Some (foldl (fun m y => if Qlt_bool m y then y else m) x xs)
  end.

Definition series_min (v : list (option Q)) : option Q :=
  match dropna v with
  | [] => None
  | x :: xs => Some (foldl (fun m y => if Qlt_bool y m then y else m) x xs)
  end.

(** [frame.max(axis=1)]: one value per row of the frame, NaN skipped. *)
Definition row_max (f : numeric_frame) : list (option Q) :=
  fmap (fun i => series_max (fmap (fun '(_, v) => mjoin (v !! i)) f))
      (seq 0 (frame_rows f)).

Definition key_error (name : string) : exn :=
  {| kind := KeyError; message := name |}.

(** [df[name]] *)
Definition getitem (name : string) (df : table) : outcome column :=
  match get_column name df with
  | Some c => Returns c
  | None => Raises (key_error name)
  end.

(** One round of the loop of lines 64 to 71.  The candidate fields are
    readings; pandas cannot subtract from a column of another dtype. *)
Definition normalize (df : table) (normalized : numeric_frame) (pollutant : string)
  : outcome numeric_frame :=
  c ← getitem pollutant df;
  match c with
  | Numeric v =>
      match series_max v, series_min v with
      | Some max_val, Some min_val =>
          if Qlt_bool min_val max_val then
            Returns (set_series pollutant
                       (fmap (option_map
                               (fun x => 100 * (x - min_val) / (max_val - min_val))%Q) v)
                       normalized)
          else Returns (set_scalar pollutant 0 normalized)
      | _, _ =>
          (* the column has no valid entry: NaN > NaN is false *)
          Returns (set_scalar pollutant 0 normalized)
      end
  | _ => Raises {| kind := TypeError; message := "unsupported operand type(s) for -" |}
  end.

Fixpoint normalize_all (df : table) (normalized : numeric_frame) (pollutants : list string)
  : outcome numeric_frame :=
  match pollutants with
  | [] => Returns normalized
  | p :: rest =>
      normalized ← normalize df normalized p;
      normalize_all df normalized rest
  end.

Definition no_pollutants : exn :=
  {| kind := ValueError;
     message := "None of the key pollutants needed for AQI calculation are available in the dataset." |}.

(** [[p for p in key_pollutants if p in df.columns]] *)
Definition available_pollutants (df : table) : list string :=
  List.filter (fun p => has_column p df) key_pollutants.

Definition calculate_aqi (df : table) : outcome table :=
  (* aqi_data = pd.DataFrame(); aqi_data['DateTime'] = df['DateTime'] *)
  stamps ← getitem "DateTime" df;
  let aqi_data : table := [("DateTime", stamps)] in
  match available_pollutants df with
  | [] => Raises no_pollutants
  | _ =>
      normalized ← normalize_all df [] (available_pollutants df);
      (* aqi_data['AQI'] = normalized.max(axis=1) *)
      Returns (set_column "AQI"
                 (Numeric (reindex (nrows aqi_data) (row_max normalized))) aqi_data)
  end.

(** *** detect_outliers *)

(** A standard score is kept as the pair of the absolute deviation from
    the mean and the population variance: it stands for
    [deviation / sqrt variance], which is not rational in general, and
    for NaN when both are zero. *)
Record zscore := { deviation : Q; variance : Q }.

(** [z > threshold], for a threshold that is not negative: the
    comparison of the squares.  It is false on NaN. *)
Definition exceeds (threshold : Q) (z : zscore) : bool :=
  Qlt_bool (threshold * threshold * variance z) (deviation z * deviation z).

Definition Qmean (vs : list Q) : Q := (Qsum vs / inject_Z (Z.of_nat (length vs)))%Q.

(** [np.std], with ddof = 0, squared. *)
Definition population_variance (vs : list Q) : Q :=
  Qmean (fmap (fun x => (x - Qmean vs) * (x - Qmean vs))%Q vs).

(** [np.abs(stats.zscore(series.dropna()))] written back to the rows of
    the valid entries; the other rows hold NaN. *)
Definition abs_zscores (v : list (option Q)) : list (option zscore) :=
  let vs := dropna v in
  fmap (option_map (fun x => {| deviation := Qabs (x - Qmean vs);
                               variance := population_variance vs |})) v.

(** [z_scores > 3], row by row; NaN compares false. *)
Definition over_three (zs : list (option zscore)) : list bool :=
  fmap (fun z => match z with Some z => exceeds 3 z | None => false end) zs.

(** The columns of the outlier table: rows of the input, scores, flags. *)
Inductive outlier_column :=
| Data (c : column)
| ZScore (v : list (option zscore))
| IsOutlier (v : list bool).

(** The outlier table, with the labels of its rows in the input. *)
Record outlier_frame := {
  index : list nat;
  cells : list (string * outlier_column)
}.

Definition take {A} (labels : list nat) (v : list (option A)) : list (option A) :=
  fmap (fun i => mjoin (v !! i)) labels.

Definition take_column (labels : list nat) (c : column) : column :=
  match c with
  | Numeric v => Numeric (take labels v)
  | Text v => Text (take labels v)
  | Categorical cats v => Categorical cats (take labels v)
  end.

(** The rows [labels] of a column that has the index of the input. *)
Definition take_rows (labels : list nat) (c : outlier_column) : outlier_column :=
  match c with
  | Data c => Data (take_column labels c)
  | ZScore v => ZScore (take labels v)
  | IsOutlier v => IsOutlier (fmap (fun i => default false (v !! i)) labels)
  end.

(** A column of a frame without rows, reindexed to [n] rows: NaN
    everywhere (a bool column becomes an object column). *)
Definition blank (n : nat) (c : outlier_column) : outlier_column :=
  match c with
  | Data (Numeric _) => Data (Numeric (replicate n None))
  | Data (Text _) => Data (Text (replicate n None))
  | Data (Categorical cats _) => Data (Categorical cats (replicate n None))
  | ZScore _ => ZScore (replicate n None)
  | IsOutlier _ => Data (Text (replicate n None))
  end.

(** [outliers_df[name] = series] for a Series over the [n] rows of the
    input.  As in [set_series], a frame without rows takes the index of
    a Series that has rows. *)
Definition assign (name : string) (n : nat) (series : outlier_column)
  (out : outlier_frame) : outlier_frame :=
  let out :=
    if (length (index out) =? 0)%nat && (0 <? n)%nat then
      {| index := seq 0 n; cells := fmap (fun '(k, c) => (k, blank n c)) (cells out) |}
    else out in
  {| index := index out;
     cells := set_column name (take_rows (index out) series) (cells out) |}.

(** [df.select_dtypes(include=[np.number]).columns] *)
Definition numeric_columns (df : table) : list string :=
  omap (fun '(name, c) => match c with Numeric _ => Some name | _ => None end) df.

(** [column in df.columns and df[column].dtype in [np.float64, np.int64]] *)
Definition checked (df : table) (column : string) : option (list (option Q)) :=
  match get_column column df with
  | Some (Numeric v) => Some v
  | _ => None
  end.

(** The labels of the rows that a mask selects. *)
Definition selected (mask : list bool) : list nat :=
  omap (fun '(i, b) => if b : bool then Some i else None) (zip (seq 0 (length mask)) mask).

Definition detect_outliers (df : table) (columns : option (list string)) : outlier_frame :=
  let columns := default (numeric_columns df) columns in
  let outlier_mask :=
    foldl (fun mask column =>
             match checked df column with
             | Some v => zip_with orb mask (over_three (abs_zscores v))
             | None => mask
             end) (replicate (nrows df) false) columns in
  (* outliers_df = df[outlier_mask].copy() *)
  let labels := selected outlier_mask in
  let outliers_df :=
    {| index := labels;
       cells := fmap (fun '(name, c) => (name, Data (take_column labels c))) df |} in
  foldl (fun out column =>
           match checked df column with
           | Some v =>
               let z_scores := abs_zscores v in
               let out := assign (column ++ "_z_score") (nrows df) (ZScore z_scores) out in
               assign (column ++ "_is_outlier") (nrows df) (IsOutlier (over_three z_scores)) out
           | None => out
           end) outliers_df columns.

(** *** perform_time_analysis *)

Definition day_order : list string :=
  ["Monday"; "Tuesday"; "Wednesday"; "Thursday"; "Friday"; "Saturday"; "Sunday"].

Definition month_order : list string :=
  ["January"; "February"; "March"; "April"; "May"; "June";
   "July"; "August"; "September"; "October"; "November"; "December"].

(** [pd.Categorical(series, categories=cats, ordered=True)]: a value
    that is not one of the categories becomes NaN. *)
Definition as_categorical (cats : list string) (c : column) : column :=
  let restrict :=
    fmap (fun cell : option string =>
           match cell with
           | Some s => if bool_decide (s ∈ cats) then Some s else None
           | None => None
           end) in
  match c with
  | Text v => Categorical cats (restrict v)
  | Categorical _ v => Categorical cats (restrict v)
  | Numeric v => Categorical cats (fmap (fun _ => None) v)
  end.

(** Sorted insertion that keeps one copy of equal keys. *)
Fixpoint insert_key {A} (leb eqb : A -> A -> bool) (x : A) (l : list A) : list A :=
  match l with
  | [] => [x]
  | y :: rest =>
      if eqb x y then l
      else if leb x y then x :: l
      else y :: insert_key leb eqb x rest
  end.

Definition sorted_unique {A} (leb eqb : A -> A -> bool) (l : list A) : list A :=
  foldr (insert_key leb eqb) [] l.

(** The labels of the rows whose key is [k]. *)
Definition rows_of {A} (eqb : A -> A -> bool) (v : list (option A)) (k : A) : list nat :=
  selected (fmap (fun cell => match cell with Some x => eqb x k | None => false end) v).

(** [df.groupby(key)]: the group keys in their order, as the key column
    of the aggregate, and the rows of each group.  Rows with a NaN key
    belong to no group.  Keys are sorted; a categorical key lists its
    categories in their order, all of them unless [observed]. *)
Definition groupby (observed : bool) (key : column) : column * list (list nat) :=
  match key with
  | Numeric v =>
      let ks := sorted_unique Qle_bool Qeq_bool (dropna v) in
      (Numeric (fmap Some ks), fmap (rows_of Qeq_bool v) ks)
  | Text v =>
      let ks := sorted_unique String.leb String.eqb (dropna v) in
      (Text (fmap Some ks), fmap (rows_of String.eqb v) ks)
  | Categorical cats v =>
      let ks := if observed then filter (.∈ dropna v) cats else cats in
      (Categorical cats (fmap Some ks), fmap (rows_of String.eqb v) ks)
  end.

(** [df.groupby(key)[numeric_cols].mean().reset_index()], with the key
    column named [name]. *)
Definition grouped_mean (df : table) (numeric_cols : list string)
  (observed : bool) (key : column) (name : string) : table :=
  let '(keys, groups) := groupby observed key in
  (name, keys)
    :: omap (fun col =>
               match get_column col df with
               | Some (Numeric v) =>
                   Some (col, Numeric (fmap (fun rows => mean (take rows v)) groups))
               | _ => None
               end) numeric_cols.

(** [series.nunique()]: the number of distinct values, NaN apart. *)
Definition nunique (c : column) : nat :=
  match c with
  | Numeric v => length (sorted_unique Qle_bool Qeq_bool (dropna v))
  | Text v => length (remove_dups (dropna v))
  | Categorical _ v => length (remove_dups (dropna v))
  end.

Definition missing_datetime : exn :=
  {| kind := ValueError;
     message := "DataFrame must contain 'DateTime' column for time analysis" |}.

(** The function works on the caller's frame.  It returns the dict of
    aggregate tables, or the exception, together with the caller's
    frame as the call leaves it. *)
Definition perform_time_analysis (df : table) : outcome (gmap string table) * table :=
  let result : gmap string table := ∅ in
  if negb (has_column "DateTime" df) then (Raises missing_datetime, df)
  else
    let numeric_cols :=
      List.filter (fun col => negb (bool_decide (col ∈ ["Hour"; "Day"; "Month"])))
                  (numeric_columns df) in
    match get_column "Hour" df with
    | None => (Raises (key_error "Hour"), df)
    | Some hour =>
        let hourly_df := grouped_mean df numeric_cols false hour "Hour" in
        let result := <["hourly" := hourly_df]> result in
        let '(result, df) :=
          match get_column "Day" df with
          | Some day =>
              (* df['Day_cat'] = pd.Categorical(df['Day'], ...) *)
              let day_cat := as_categorical day_order day in
              let df := set_column "Day_cat" day_cat df in
              let daily_df := grouped_mean df numeric_cols true day_cat "Day" in
              (<["daily" := daily_df]> result, df)
          | None => (result, df)
          end in
        let '(result, df) :=
          match get_column "Month" df with
          | Some month =>
              let unique_months := nunique month in
              if (1 <? unique_months)%nat then
                (* df['Month_cat'] = pd.Categorical(df['Month'], ...) *)
                let month_cat := as_categorical month_order month in
                let df := set_column "Month_cat" month_cat df in
                let monthly_df := grouped_mean df numeric_cols true month_cat "Month" in
                (<["monthly" := monthly_df]> result, df)
              else (result, df)
          | None => (result, df)
          end in
        (Returns result, df)
    end.

(** * Vocabulary of the properties *)

Definition is_numeric (c : column) : bool :=
  match c with
  | Numeric _ => true
  | _ => false
  end.

(** The columns of readings, all but Date and Time, are numeric: the
    Raw Record of the data model. *)
Definition readings_numeric (df : table) : bool :=
  forallb (fun '(name, c) => is_date_or_time name || is_numeric c) df.

Definition populated (c : column) : bool :=
  match c with
  | Numeric v => forallb (fun cell : option Q => bool_decide (is_Some cell)) v
  | _ => false
  end.

(** No reading is absent. *)
Definition fully_populated (df : table) : bool :=
  forallb (fun '(name, c) => is_date_or_time name || populated c) df.

(** The key column of a monthly table lists months in calendar order. *)
Definition months_ordered (t : table) : Prop :=
  exists ks,
    get_column "Month" t = Some (Categorical month_order (Some <$> ks)) /\
    ks `sublist_of` month_order.

(** The sentence of the specification on the monthly table, for one
    input table. *)
Definition monthly_claim (df : table) : Prop :=
  forall month,
    get_column "Month" df = Some month ->
    exists result,
      (perform_time_analysis df).1 = Returns result /\
      (is_Some (result !! "monthly") <-> 1 < nunique month) /\
      (forall t, result !! "monthly" = Some t -> months_ordered t) /\
      (nunique month = 1 ->
       result !! "monthly" = None /\
       is_Some (result !! "hourly") /\ is_Some (result !! "daily")).

(** The caller's frame after lines 146 to 151: Day_cat is added when
    there is a Day column. *)
Definition with_day_cat (df : table) : table :=
  match get_column "Day" df with
  | Some day => set_column "Day_cat" (as_categorical day_order day) df
  | None => df
  end.

(** The caller's frame after lines 159 to 171. *)
Definition with_month_cat (df : table) : table :=
  match get_column "Month" df with
  | Some month =>
      if (1 <? nunique month)%nat
      then set_column "Month_cat" (as_categorical month_order month) df
      else df
  | None => df
  end.

(** [numeric_cols] of [perform_time_analysis]. *)
Definition time_analysis_columns (df : table) : list string :=
  List.filter (fun col => negb (bool_decide (col ∈ ["Hour"; "Day"; "Month"])))
              (numeric_columns df).

(** The sentence of the specification on the failure of the Composite
    Index Calculator, for one input table. *)
Definition index_error_claim (df : table) : Prop :=
  (calculate_aqi df = Raises no_pollutants <->
   forall p, p ∈ key_pollutants -> has_column p df = false) /\
  ((exists p, p ∈ key_pollutants /\ has_column p df = true) ->
   exists t, calculate_aqi df = Returns t).

(** The flags that the outlier table carries for a checked column, and
    the labels of the rows they mark. *)
Definition flags (out : outlier_frame) (column : string) : list bool :=
  match get_column (column ++ "_is_outlier") (cells out) with
  | Some (IsOutlier v) => v
  | _ => []
  end.

Definition flagged_rows (out : outlier_frame) (column : string) : list nat :=
  omap (fun '(label, flag) => if flag : bool then Some label else None)
       (zip (index out) (flags out column)).

(** What the Imputer makes of one column of a table of readings. *)
Definition imputed (entry : string * column) : string * column :=
  let '(name, c) := entry in
  if is_date_or_time name then (name, c)
  else match c with
       | Numeric v => (name, Numeric (impute v))
       | _ => (name, c)
       end.

(** The cell that [replace] leaves for a reading. *)
Definition cleaned (x : Q) : option Q :=
  if Qeq_bool x sentinel then None else Some x.

(** The scores, in lowest terms. *)
Definition scores (out : outcome table) : option (list (option Q)) :=
  match out with
  | Returns t =>
      match get_column "AQI" t with
      | Some (Numeric v) => Some (option_map Qred <$> v)
      | _ => None
      end
  | Raises _ => None
  end.

(** The normalized field as the specification defines it: the min-max
    formula, and 0 in every row when the field does not vary.  A field
    without a valid value has no maximum above its minimum either. *)
Definition spec_normalized (v : list (option Q)) : list (option Q) :=
  match series_max v, series_min v with
  | Some max_val, Some min_val =>
      if Qlt_bool min_val max_val
      then option_map (fun x => 100 * (x - min_val) / (max_val - min_val))%Q <$> v
      else replicate (length v) (Some 0%Q)
  | _, _ => replicate (length v) (Some 0%Q)
  end.

(** The values of a numeric column of the table. *)
Definition numeric_values (df : table) (name : string) : list (option Q) :=
  match get_column name df with
  | Some (Numeric v) => v
  | _ => []
  end.

(** The normalized candidate fields that the table has. *)
Definition spec_fields (df : table) : numeric_frame :=
  (fun p => (p, spec_normalized (numeric_values df p))) <$> available_pollutants df.

(** The score of the specification: for every row of the table the
    maximum of its normalized candidate fields. *)
Definition spec_scores (df : table) : list (option Q) :=
  (fun i => series_max ((fun '(_, v) => mjoin (v !! i)) <$> spec_fields df))
    <$> seq 0 (nrows df).


(** The candidate fields that the table has are numeric. *)
Definition candidates_numeric (df : table) : bool :=
  forallb (fun p => match get_column p df with
                    | Some c => is_numeric c
                    | None => true
                    end) key_pollutants.

(** [max_val > min_val] *)
Definition varies (v : list (option Q)) : bool :=
  match series_max v, series_min v with
  | Some max_val, Some min_val => Qlt_bool min_val max_val
  | _, _ => false
  end.




(** ** Further vocabulary *)

(** [s.endswith(ch)] *)
Fixpoint ends_with (ch : Ascii.ascii) (s : string) : bool :=
  match s with
  | EmptyString => false
  | String c EmptyString => Ascii.eqb c ch
  | String _ rest => ends_with ch rest
  end.


(** No candidate field that the table has varies. *)
Definition no_field_varies (df : table) : bool :=
  forallb (fun p => negb (varies (numeric_values df p))) (available_pollutants df).


(** Every reading of the column is [c]. *)
Definition all_readings (c : Q) (v : list (option Q)) : bool :=
  forallb (fun cell => match cell with Some x => Qeq_bool x c | None => true end) v.

(** [outlier_mask] of [detect_outliers], after the loop of lines 96 to
    104. *)
Definition outlier_mask (df : table) (columns : list string) : list bool :=
  foldl (fun mask column =>
           match checked df column with
           | Some v => zip_with orb mask (over_three (abs_zscores v))
           | None => mask
           end) (replicate (nrows df) false) columns.

(** The column is in the table and holds numbers. *)
Definition is_checked (df : table) (column : string) : bool :=
  bool_decide (is_Some (checked df column)).


(** The second loop of [detect_outliers], lines 110 to 117. *)
Definition annotate (df : table) (out : outlier_frame) (column : string) : outlier_frame :=
  match checked df column with
  | Some v =>
      let z_scores := abs_zscores v in
      let out := assign (column ++ "_z_score") (nrows df) (ZScore z_scores) out in
      assign (column ++ "_is_outlier") (nrows df) (IsOutlier (over_three z_scores)) out
  | None => out
  end.

(** The strings of a column; a number is no string. *)
Definition labels_of (c : column) : list (option string) :=
  match c with
  | Text v => v
  | Categorical _ v => v
  | Numeric v => (fun _ => None) <$> v
  end.

(** The daily table of lines 146 to 156, when there is one. *)
Definition daily_table (df : table) : option table :=
  day ← get_column "Day" df;
  Some (grouped_mean (with_day_cat df) (time_analysis_columns df) true
          (as_categorical day_order day) "Day").

(** The monthly table of lines 159 to 176, when there is one. *)
Definition monthly_table (df : table) : option table :=
  month ← get_column "Month" df;
  if (1 <? nunique month)%nat
  then Some (grouped_mean (with_month_cat (with_day_cat df)) (time_analysis_columns df)
               true (as_categorical month_order month) "Month")
  else None.

(** [result[key] = t], for a table that was made. *)
Definition insert_table (key : string) (t : option table) (result : gmap string table)
  : gmap string table :=
  match t with
  | Some t => <[key := t]> result
  | None => result
  end.

(** * Example tables *)

Definition readings_example : table :=
  [("Date", Text [Some "01/01/2020"; Some "01/01/2020"; Some "01/01/2020"]);
   ("Time", Text [Some "10.00.00"; Some "11.00.00"; Some "12.00.00"]);
   ("CO(GT)", Numeric [Some 2%Q; None; Some 4%Q]);
   ("NMHC(GT)", Numeric [None; None; None])].

Definition populated_example : table :=
  [("Date", Text [Some "01/01/2020"; Some "01/01/2020"; None]);
   ("Time", Text [Some "10.00.00"; Some "11.00.00"; None]);
   ("CO(GT)", Numeric [Some 2%Q; Some (5 # 2); Some 4%Q]);
   ("T", Numeric [Some (-3)%Q; Some 0%Q; Some (1 # 3)])].

Definition raw_example : table :=
  [("Date", Text [Some "01/01/2020"; Some "01/01/2020"; Some "01/01/2020"]);
   ("Time", Text [Some "10.00.00"; Some "11.00.00"; Some "12.00.00"]);
   ("CO(GT);", Numeric [Some 2%Q; Some (-200)%Q; Some 4%Q]);
   ("Unnamed: 15", Numeric [None; None; None])].

Definition undated_example : table :=
  [("CO(GT)", Numeric [Some 2%Q; Some 3%Q]);
   ("Hour", Numeric [Some 10%Q; Some 11%Q]);
   ("Day", Text [Some "Monday"; Some "Monday"]);
   ("Month", Text [Some "January"; Some "January"])].

(** A prepared table, as the Feature Deriver leaves it. *)
Definition prepared_example : table :=
  [("Date", Text [Some "10/03/2004"; Some "10/03/2004"; Some "05/04/2004"]);
   ("Time", Text [Some "18.00.00"; Some "19.00.00"; Some "18.00.00"]);
   ("CO(GT)", Numeric [Some (26 # 10)%Q; Some 2%Q; Some (22 # 10)%Q]);
   ("DateTime", Text [Some "2004-03-10 18:00:00"; Some "2004-03-10 19:00:00";
                      Some "2004-04-05 18:00:00"]);
   ("Hour", Numeric [Some 18%Q; Some 19%Q; Some 18%Q]);
   ("Day", Text [Some "Wednesday"; Some "Wednesday"; Some "Monday"]);
   ("Month", Text [Some "March"; Some "March"; Some "April"])].

(** A table of one month that has no Day column. *)
Definition dayless_example : table :=
  [("CO(GT)", Numeric [Some (26 # 10)%Q; Some 2%Q]);
   ("DateTime", Text [Some "2004-01-10 18:00:00"; Some "2004-01-10 19:00:00"]);
   ("Hour", Numeric [Some 18%Q; Some 19%Q]);
   ("Month", Text [Some "January"; Some "January"])].

Definition index_example : table :=
  [("DateTime", Text [Some "2004-03-10 18:00:00"; Some "2004-03-10 19:00:00";
                      Some "2004-03-10 20:00:00"]);
   ("CO(GT)", Numeric [Some (26 # 10)%Q; Some 2%Q; Some (22 # 10)%Q]);
   ("NO2(GT)", Numeric [Some 113%Q; Some 92%Q; Some 114%Q])].

(** A table of readings that has no DateTime column. *)
Definition unstamped_example : table :=
  [("CO(GT)", Numeric [Some (26 # 10)%Q; Some 2%Q])].

(** A table in which the only candidate field does not vary. *)
Definition constant_example : table :=
  [("DateTime", Text [Some "2004-03-10 18:00:00"; Some "2004-03-10 19:00:00"]);
   ("CO(GT)", Numeric [Some 2%Q; Some 2%Q]);
   ("T", Numeric [Some (136 # 10)%Q; Some (133 # 10)%Q])].

(** A table in which the only candidate field is absent in every row. *)
Definition absent_example : table :=
  [("DateTime", Text [Some "2004-03-10 18:00:00"; Some "2004-03-10 19:00:00";
                      Some "2004-03-10 20:00:00"]);
   ("CO(GT)", Numeric [None; None; None]);
   ("T", Numeric [Some (136 # 10)%Q; Some (133 # 10)%Q; Some (119 # 10)%Q])].

Definition spike : list (option Q) :=
  [Some 1%Q; Some 1%Q; Some 1%Q; Some 1%Q; Some 100%Q].

Definition spike_example : table := [("x", Numeric spike)].

(** The scenario of the specification. *)
Definition spike_claim : Prop :=
  flagged_rows (detect_outliers spike_example (Some ["x"])) "x" = [4].

(** What the Loader makes of [raw_example]. *)
Definition loaded_example : table :=
  [("Date", Text [Some "01/01/2020"; Some "01/01/2020"; Some "01/01/2020"]);
   ("Time", Text [Some "10.00.00"; Some "11.00.00"; Some "12.00.00"]);
   ("CO(GT)", Numeric [Some 2%Q; None; Some 4%Q])].

(** A column with a gap between two readings and an absent cell at each
    end, and a column without any reading. *)
Definition gap_example : table :=
  [("Date", Text [Some "10/03/2004"; Some "10/03/2004"; Some "10/03/2004";
                  Some "10/03/2004"; Some "11/03/2004"; Some "11/03/2004"]);
   ("T", Numeric [None; Some 11%Q; None; None; Some 14%Q; None]);
   ("RH", Numeric [None; None; None; None; None; None])].

(** What the Imputer makes of [gap_example]. *)
Definition gap_example_out : table :=
  [("Date", Text [Some "10/03/2004"; Some "10/03/2004"; Some "10/03/2004";
                  Some "10/03/2004"; Some "11/03/2004"; Some "11/03/2004"]);
   ("T", Numeric (interpolate [None; Some 11%Q; None; None; Some 14%Q; None]));
   ("RH", Numeric [None; None; None; None; None; None])].

(** A table in which no candidate field varies: one is constant, one
    has a single reading, one has none. *)
Definition flat_example : table :=
  [("DateTime", Text [Some "2004-03-10 18:00:00"; Some "2004-03-10 19:00:00"]);
   ("CO(GT)", Numeric [Some 2%Q; Some 2%Q]);
   ("NOx(GT)", Numeric [None; Some 166%Q]);
   ("NO2(GT)", Numeric [None; None])].

(** Eleven equal readings and one far from them. *)
Definition outlier_example : table :=
  [("DateTime", Text [Some "2004-03-10 01:00:00"; Some "2004-03-10 02:00:00";
                      Some "2004-03-10 03:00:00"; Some "2004-03-10 04:00:00";
                      Some "2004-03-10 05:00:00"; Some "2004-03-10 06:00:00";
                      Some "2004-03-10 07:00:00"; Some "2004-03-10 08:00:00";
                      Some "2004-03-10 09:00:00"; Some "2004-03-10 10:00:00";
                      Some "2004-03-10 11:00:00"; Some "2004-03-10 12:00:00"]);
   ("CO(GT)", Numeric [Some 1%Q; Some 1%Q; Some 1%Q; Some 1%Q; Some 1%Q; Some 1%Q;
                       Some 1%Q; Some 1%Q; Some 1%Q; Some 1%Q; Some 1%Q; Some 100%Q])].

(** * Properties *)

(** ** The Imputer *)

Section Fill.

Context {A : Type}.
Implicit Types (l : list (option A)) (last : option A).

Lemma ffill_from_length last l : length (ffill_from last l) = length l.
Proof.
  revert last; induction l as [|[x|] l IH]; intros last; simpl; auto.
Qed.

Lemma bfill_length l : length (bfill l) = length l.
Proof.
  induction l as [|[x|] l IH]; simpl; auto.
  destruct (bfill l); simpl in *; auto.
Qed.

(** Once a valid value has been seen, forward fill leaves no gap. *)
Lemma ffill_from_valid (a : A) l : None ∉ ffill_from (Some a) l.
Proof.
  revert a; induction l as [|[x|] l IH]; intros a; simpl.
  - apply not_elem_of_nil.
  - rewrite not_elem_of_cons. split; [done | apply IH].
  - rewrite not_elem_of_cons. split; [done | apply IH].
Qed.

Lemma ffill_from_populated last l : None ∉ l -> ffill_from last l = l.
Proof.
  revert last; induction l as [|[x|] l IH]; intros last Hl; simpl.
  - done.
  - f_equal. apply IH. intros ?. apply Hl. by right.
  - exfalso. apply Hl. by left.
Qed.

Lemma bfill_populated l : None ∉ l -> bfill l = l.
Proof.
  induction l as [|[x|] l IH]; intros Hl; simpl.
  - done.
  - f_equal. apply IH. intros ?. apply Hl. by right.
  - exfalso. apply Hl. by left.
Qed.

(** Forward fill, then backward fill: a column with a valid value
    somewhere has a valid value everywhere. *)
Lemma bfill_ffill_valid l :
  (exists x, Some x ∈ l) -> None ∉ bfill (ffill l).
Proof.
  unfold ffill. induction l as [|[x|] l IH]; intros [y Hy]; simpl.
  - by apply elem_of_nil in Hy.
  - rewrite (bfill_populated (ffill_from (Some x) l)) by apply ffill_from_valid.
    rewrite not_elem_of_cons. split; [done | apply ffill_from_valid].
  - apply elem_of_cons in Hy as [Hy | Hy]; [done|].
    assert (Hrest : None ∉ bfill (ffill_from None l)) by (apply IH; eauto).
    assert (Hlen : length (bfill (ffill_from None l)) = length l)
      by (by rewrite bfill_length, ffill_from_length).
    destruct (bfill (ffill_from None l)) as [|next filled] eqn:Hb.
    + destruct l; [by apply elem_of_nil in Hy | done].
    + rewrite not_elem_of_cons. split; [|done].
      intros <-. apply Hrest. by left.
Qed.

End Fill.

Lemma interpolate_from_length prev l :
  length (interpolate_from prev l) = length l.
Proof.
  revert prev; induction l as [|[x|] l IH]; intros prev; simpl; auto.
Qed.

(** Interpolation leaves the valid entries where they are. *)
Lemma interpolate_from_keeps prev l i x :
  l !! i = Some (Some x) -> interpolate_from prev l !! i = Some (Some x).
Proof.
  revert prev i; induction l as [|[y|] l IH]; intros prev [|i] Hi; simpl in *;
    try done; by apply IH.
Qed.

Lemma interpolate_from_populated prev l :
  None ∉ l -> interpolate_from prev l = l.
Proof.
  revert prev; induction l as [|[x|] l IH]; intros prev Hl; simpl.
  - done.
  - f_equal. apply IH. intros ?. apply Hl. by right.
  - exfalso. apply Hl. by left.
Qed.

Lemma fillna_length value l : length (fillna value l) = length l.
Proof. destruct value; simpl; [apply length_fmap | done]. Qed.

Lemma fillna_valid value l : None ∉ l -> None ∉ fillna value l.
Proof.
  destruct value as [m|]; simpl; [|done].
  intros _ Hin. apply list_elem_of_fmap in Hin as ([y|] & Heq & _); done.
Qed.

Lemma fillna_populated value l : None ∉ l -> fillna value l = l.
Proof.
  destruct value as [m|]; simpl; [|done].
  induction l as [|[x|] l IH]; intros Hl; simpl.
  - done.
  - f_equal. apply IH. intros ?. apply Hl. by right.
  - exfalso. apply Hl. by left.
Qed.

Lemma impute_length v : length (impute v) = length v.
Proof.
  unfold impute, ffill, interpolate.
  by rewrite fillna_length, bfill_length, ffill_from_length, interpolate_from_length.
Qed.

(** The chain of one column: full unless the column is empty of values. *)
Lemma impute_valid v : (exists x, Some x ∈ v) -> None ∉ impute v.
Proof.
  intros [x Hx]. unfold impute. apply fillna_valid, bfill_ffill_valid.
  exists x. apply list_elem_of_lookup in Hx as [i Hi].
  apply list_elem_of_lookup. exists i.
  by apply interpolate_from_keeps.
Qed.

Lemma impute_populated v : None ∉ v -> impute v = v.
Proof.
  intros Hv. unfold impute, ffill, interpolate.
  rewrite (interpolate_from_populated None v Hv).
  rewrite (ffill_from_populated None v Hv).
  rewrite (bfill_populated v Hv).
  by apply fillna_populated.
Qed.

(** On a table of readings the Imputer returns, column by column. *)
Lemma handle_missing_values_returns (df : table) :
  readings_numeric df = true ->
  handle_missing_values df = Returns (fmap imputed df).
Proof.
  unfold handle_missing_values, readings_numeric.
  induction df as [|[name c] df IH]; intros Hdf; simpl in *; [done|].
  apply andb_prop in Hdf as [Hc Hdf].
  rewrite (IH Hdf). clear IH.
  destruct (is_date_or_time name); simpl; [done|].
  destruct c; simpl in *; done.
Qed.

(** The Imputer returns on tables of readings only. *)
Lemma handle_missing_values_readings (df out : table) :
  handle_missing_values df = Returns out -> readings_numeric df = true.
Proof.
  unfold handle_missing_values, readings_numeric.
  revert out. induction df as [|[name c] df IH]; intros out; simpl; [done|].
  destruct (is_date_or_time name); simpl.
  - destruct (map_outcome _ df) as [rest|e]; simpl; [|done].
    intros _. by apply (IH rest).
  - destruct c as [v| |]; simpl; try done.
    destruct (map_outcome _ df) as [rest|e]; simpl; [|done].
    intros _. by apply (IH rest).
Qed.

(** C1.  The Imputer returns on every table of readings, and whenever
    it returns, the table it returns has the columns of its input and
    every column other than Date and Time that had at least one value
    that was not absent has no absent value; only a column that was
    absent throughout can keep an absent value. *)
Theorem imputer_fills_columns (df : table) :
  (readings_numeric df = true -> exists out, handle_missing_values df = Returns out) /\
  forall out,
    handle_missing_values df = Returns out ->
    columns out = columns df /\
    forall i name v,
      df !! i = Some (name, Numeric v) ->
      is_date_or_time name = false ->
      exists v',
        out !! i = Some (name, Numeric v') /\
        length v' = length v /\
        ((exists x, Some x ∈ v) -> None ∉ v').
Proof.
  split; [intros Hdf; rewrite handle_missing_values_returns by done; by eauto|].
  intros out Hrun.
  rewrite handle_missing_values_returns in Hrun
    by by eapply handle_missing_values_readings.
  injection Hrun as <-. split.
  - unfold columns. rewrite <- list_fmap_compose. apply list_fmap_ext.
    intros _ [name c] _. simpl. destruct (is_date_or_time name); [done|].
    by destruct c.
  - intros i name v Hi Hname. exists (impute v). split; [|split].
    + rewrite list_lookup_fmap, Hi. simpl. by rewrite Hname.
    + apply impute_length.
    + apply impute_valid.
Qed.

Lemma imputer_fills_columns_witness :
  exists out,
    handle_missing_values readings_example = Returns out /\
    columns out = columns readings_example /\
    forall i name v,
      readings_example !! i = Some (name, Numeric v) ->
      is_date_or_time name = false ->
      exists v',
        out !! i = Some (name, Numeric v') /\
        length v' = length v /\
        ((exists x, Some x ∈ v) -> None ∉ v').
Proof.
  destruct (imputer_fills_columns readings_example) as [Hreturns Hfilled].
  destruct (Hreturns eq_refl) as [out Hout].
  exists out. split; [exact Hout | exact (Hfilled out Hout)].
Defined.

Lemma populated_spec (v : list (option Q)) :
  populated (Numeric v) = true -> None ∉ v.
Proof.
  simpl. rewrite forallb_forall. intros Hv Hin.
  apply list_elem_of_In in Hin. apply Hv in Hin.
  apply bool_decide_eq_true in Hin. by destruct Hin.
Qed.

Lemma fully_populated_fixed (df : table) :
  fully_populated df = true -> fmap imputed df = df.
Proof.
  unfold fully_populated.
  induction df as [|[name c] df IH]; intros Hdf; [done|].
  simpl in Hdf. apply andb_prop in Hdf as [Hc Hdf].
  rewrite fmap_cons, (IH Hdf). f_equal. simpl.
  destruct (is_date_or_time name); simpl in *; [done|].
  destruct c as [v| |]; try done.
  by rewrite impute_populated by by apply populated_spec.
Qed.

Lemma fully_populated_readings (df : table) :
  fully_populated df = true -> readings_numeric df = true.
Proof.
  unfold fully_populated, readings_numeric.
  induction df as [|[name c] df IH]; intros Hdf; simpl in *; [done|].
  apply andb_prop in Hdf as [Hc Hdf]. rewrite (IH Hdf), andb_true_r.
  destruct (is_date_or_time name); simpl in *; [done|]. by destruct c.
Qed.

(** C6.  On a table whose readings are all present the Imputer returns
    the table it was given, so a second run returns what the first
    returned. *)
Theorem imputer_idempotent (df : table) :
  fully_populated df = true ->
  handle_missing_values df = Returns df /\
  (out ← handle_missing_values df; handle_missing_values out) = handle_missing_values df.
Proof.
  intros Hdf.
  assert (Hrun : handle_missing_values df = Returns df).
  { rewrite handle_missing_values_returns by by apply fully_populated_readings.
    by rewrite fully_populated_fixed. }
  split; [done|]. rewrite Hrun. simpl. done.
Qed.

Lemma imputer_idempotent_witness :
  handle_missing_values populated_example = Returns populated_example /\
  (out ← handle_missing_values populated_example; handle_missing_values out)
  = handle_missing_values populated_example.
Proof. apply (imputer_idempotent populated_example). reflexivity. Defined.

(** ** The Loader *)

Lemma replace_sentinel_numeric (v : list (option Q)) :
  replace_sentinel (Numeric v) = Numeric ((fun cell => cell ≫= cleaned) <$> v).
Proof. reflexivity. Qed.

Lemma cleaned_not_sentinel (x y : Q) : cleaned x = Some y -> ~ (y == sentinel)%Q.
Proof.
  unfold cleaned. destruct (Qeq_bool x sentinel) eqn:Hx; [done|].
  intros [= <-] Hy. apply Qeq_bool_iff in Hy. congruence.
Qed.

(** C5.  When the file parses, the Loader returns a table in which no
    reading outside the Date and Time columns is -200: a parsed reading
    equal to -200 has become the absent marker, every other reading is
    kept, and the absent marker is not the number zero. *)
Theorem loader_replaces_sentinel
  (read_csv : string -> outcome table) (file_path : string) (df : table) :
  read_csv file_path = Returns df ->
  exists out,
    load_and_clean_data read_csv file_path = Returns out /\
    (forall name v x,
        (name, Numeric v) ∈ out -> is_date_or_time name = false ->
        Some x ∈ v -> ~ (x == sentinel)%Q) /\
    (forall i name v,
        drop_unnamed (strip_headers df) !! i = Some (name, Numeric v) ->
        is_date_or_time name = false ->
        exists v',
          out !! i = Some (name, Numeric v') /\
          forall j x, v !! j = Some (Some x) ->
            ((x == sentinel)%Q -> v' !! j = Some None) /\
            (~ (x == sentinel)%Q -> v' !! j = Some (Some x))) /\
    (None : option Q) ≠ Some 0%Q.
Proof.
  intros Hread. unfold load_and_clean_data. rewrite Hread.
  set (kept := drop_unnamed (strip_headers df)).
  exists (replace_sentinels kept). split; [done|]. split; [|split; [|done]].
  - intros name v x Hin Hname Hx. unfold replace_sentinels in Hin.
    apply list_elem_of_fmap in Hin as ([name0 c] & Heq & _).
    destruct (is_date_or_time name0) eqn:Hname0.
    + injection Heq as -> _. congruence.
    + destruct c as [v0| |]; try done.
      rewrite replace_sentinel_numeric in Heq. injection Heq as -> ->.
      apply list_elem_of_fmap in Hx as ([y|] & Hy & _); [|done].
      simpl in Hy. symmetry in Hy. by apply cleaned_not_sentinel in Hy.
  - intros i name v Hi Hname.
    exists ((fun cell => cell ≫= cleaned) <$> v). split.
    + unfold replace_sentinels. rewrite list_lookup_fmap, Hi. simpl.
      rewrite Hname. by rewrite <- replace_sentinel_numeric.
    + intros j x Hj. rewrite list_lookup_fmap, Hj. simpl. unfold cleaned.
      destruct (Qeq_bool x sentinel) eqn:Hx.
      * split; [done|]. intros Hne. by apply Qeq_bool_iff in Hx.
      * split; [|done]. intros Heq. apply Qeq_bool_iff in Heq. congruence.
Qed.

Lemma loader_replaces_sentinel_witness :
  exists out,
    load_and_clean_data (fun _ => Returns raw_example) "AirQualityUCI.csv" = Returns out /\
    (forall name v x,
        (name, Numeric v) ∈ out -> is_date_or_time name = false ->
        Some x ∈ v -> ~ (x == sentinel)%Q) /\
    (forall i name v,
        drop_unnamed (strip_headers raw_example) !! i = Some (name, Numeric v) ->
        is_date_or_time name = false ->
        exists v',
          out !! i = Some (name, Numeric v') /\
          forall j x, v !! j = Some (Some x) ->
            ((x == sentinel)%Q -> v' !! j = Some None) /\
            (~ (x == sentinel)%Q -> v' !! j = Some (Some x))) /\
    (None : option Q) ≠ Some 0%Q.
Proof.
  apply (loader_replaces_sentinel (fun _ => Returns raw_example) "AirQualityUCI.csv"
           raw_example).
  reflexivity.
Defined.

(** The scenario of the specification: CO = [2, -200, 4] is loaded as
    [2, absent, 4] and imputed to [2, 3, 4]. *)
Example load_then_impute :
  (df ← load_and_clean_data (fun _ => Returns raw_example) "AirQualityUCI.csv";
   handle_missing_values df)
  = Returns
      [("Date", Text [Some "01/01/2020"; Some "01/01/2020"; Some "01/01/2020"]);
       ("Time", Text [Some "10.00.00"; Some "11.00.00"; Some "12.00.00"]);
       ("CO(GT)", Numeric [Some 2%Q; Some (6 # 2)%Q; Some 4%Q])].
Proof. reflexivity. Qed.

(** ** The Temporal Aggregator *)

Lemma has_column_get_column {C} (name : string) (df : list (string * C)) :
  bool_decide (name ∈ df.*1) = true <-> is_Some (get_column name df).
Proof.
  rewrite bool_decide_eq_true.
  induction df as [|[k c] df IH]; simpl.
  - split; [by intros ?%elem_of_nil | by intros [? ?]].
  - rewrite elem_of_cons. destruct (String.eqb_spec k name) as [->|Hne].
    + split; [by eauto | by left].
    + rewrite <- IH. split; [by intros [?|?] | by right].
Qed.

Lemma get_column_set_column_ne {C} (name other : string) (c : C) (df : list (string * C)) :
  name ≠ other -> get_column name (set_column other c df) = get_column name df.
Proof.
  intros Hne. induction df as [|[k old] df IH]; simpl.
  - destruct (String.eqb_spec other name); [congruence | done].
  - destruct (String.eqb_spec k other) as [->|Hk]; simpl.
    + destruct (String.eqb_spec other name); [congruence | done].
    + by rewrite IH.
Qed.

(** C8.  Without a DateTime column the Temporal Aggregator raises its
    ValueError, the MissingFieldError of the specification, before it
    has built a table: no dict of tables is returned and the table of
    the caller is as it was. *)
Theorem time_analysis_requires_datetime (df : table) :
  has_column "DateTime" df = false ->
  perform_time_analysis df = (Raises missing_datetime, df).
Proof.
  intros Hdf. unfold perform_time_analysis. by rewrite Hdf.
Qed.

Lemma time_analysis_requires_datetime_witness :
  perform_time_analysis undated_example = (Raises missing_datetime, undated_example).
Proof. apply (time_analysis_requires_datetime undated_example). reflexivity. Defined.

Lemma has_column_is_Some (name : string) (df : table) :
  has_column name df = true <-> is_Some (get_column name df).
Proof. apply has_column_get_column. Qed.

Lemma grouped_mean_month (df : table) (cols : list string) (month : column) :
  months_ordered (grouped_mean df cols true (as_categorical month_order month) "Month").
Proof.
  destruct month as [v|v|cats v]; simpl;
    (eexists; split; [reflexivity | apply sublist_filter]).
Qed.

(** With DateTime and Hour columns the function returns; this is the
    dict it returns and the frame it leaves to the caller. *)
Lemma time_analysis_returns (df : table) (hour : column) :
  has_column "DateTime" df = true ->
  get_column "Hour" df = Some hour ->
  exists result,
    perform_time_analysis df = (Returns result, with_month_cat (with_day_cat df)) /\
    result !! "hourly"
    = Some (grouped_mean df (time_analysis_columns df) false hour "Hour") /\
    result !! "daily"
    = (day ← get_column "Day" df;
       Some (grouped_mean (with_day_cat df) (time_analysis_columns df) true
               (as_categorical day_order day) "Day")) /\
    result !! "monthly"
    = (month ← get_column "Month" df;
       if (1 <? nunique month)%nat
       then Some (grouped_mean (with_month_cat (with_day_cat df))
                    (time_analysis_columns df) true
                    (as_categorical month_order month) "Month")
       else None).
Proof.
  intros Hdt Hhour. unfold perform_time_analysis, with_month_cat, with_day_cat.
  rewrite Hdt, Hhour. simpl negb. cbv iota.
  fold (time_analysis_columns df).
  destruct (get_column "Day" df) as [day|];
    [rewrite get_column_set_column_ne by done|];
    (destruct (get_column "Month" df) as [month|];
     [destruct (1 <? nunique month)%nat eqn:Hn|]);
    (eexists; split; [reflexivity|]; repeat split; simplify_map_eq;
     by rewrite ?Hn).
Qed.

(** C7, as amended.  For a table with DateTime, Hour and Month columns
    the function returns a dict that has a monthly table exactly when
    Month holds more than one distinct value; the key column of that
    table lists the months in calendar order; with a single month there
    is no monthly table; the hourly table is always there, and the daily
    table exactly when the table has a Day column. *)
Theorem monthly_table_rule (df : table) (hour month : column) :
  has_column "DateTime" df = true ->
  get_column "Hour" df = Some hour ->
  get_column "Month" df = Some month ->
  exists result,
    (perform_time_analysis df).1 = Returns result /\
    (is_Some (result !! "monthly") <-> 1 < nunique month) /\
    (forall t, result !! "monthly" = Some t -> months_ordered t) /\
    (nunique month = 1 -> result !! "monthly" = None) /\
    is_Some (result !! "hourly") /\
    (is_Some (result !! "daily") <-> has_column "Day" df = true).
Proof.
  intros Hdt Hhour Hmonth.
  destruct (time_analysis_returns df hour Hdt Hhour)
    as (result & Hrun & Hhourly & Hdaily & Hmonthly).
  exists result. rewrite Hrun, Hhourly, Hdaily, Hmonthly, Hmonth. simpl.
  split; [done|].
  destruct (Nat.ltb_spec 1 (nunique month)) as [Hn|Hn].
  - split; [by split; eauto|]. split.
    { intros t [= <-]. apply grouped_mean_month. }
    split; [lia|]. split; [by eauto|].
    rewrite has_column_is_Some.
    destruct (get_column "Day" df); simpl; [by split; eauto | by split; intros [? ?]].
  - split; [split; [by intros [? ?] | lia]|]. split; [done|].
    split; [done|]. split; [by eauto|].
    rewrite has_column_is_Some.
    destruct (get_column "Day" df); simpl; [by split; eauto | by split; intros [? ?]].
Qed.

Lemma monthly_table_rule_witness :
  exists result,
    (perform_time_analysis prepared_example).1 = Returns result /\
    (is_Some (result !! "monthly")
     <-> 1 < nunique (Text [Some "March"; Some "March"; Some "April"])) /\
    (forall t, result !! "monthly" = Some t -> months_ordered t) /\
    (nunique (Text [Some "March"; Some "March"; Some "April"]) = 1 ->
     result !! "monthly" = None) /\
    is_Some (result !! "hourly") /\
    (is_Some (result !! "daily") <-> has_column "Day" prepared_example = true).
Proof.
  apply (monthly_table_rule prepared_example
           (Numeric [Some 18%Q; Some 19%Q; Some 18%Q])
           (Text [Some "March"; Some "March"; Some "April"])); reflexivity.
Defined.

(** C7, as stated, fails: the table has a Month column with a single
    month, the function returns, and there is no daily table. *)
Lemma monthly_claim_fails : ~ monthly_claim dayless_example.
Proof.
  intros Hclaim.
  destruct (Hclaim _ eq_refl) as (result & Hrun & _ & _ & Hsingle).
  destruct (time_analysis_returns dayless_example _ eq_refl eq_refl)
    as (r & Hr & _ & Hdaily & _).
  rewrite Hr in Hrun. injection Hrun as <-.
  destruct Hsingle as (_ & _ & [t Ht]); [reflexivity|].
  rewrite Hdaily in Ht. done.
Qed.

Lemma has_column_set_column (name other : string) (c : column) (df : table) :
  has_column name (set_column other c df) = true
  <-> has_column name df = true \/ name = other.
Proof.
  unfold has_column, columns. rewrite !bool_decide_eq_true.
  induction df as [|[k old] df IH]; simpl.
  - rewrite list_elem_of_singleton, elem_of_nil. tauto.
  - destruct (String.eqb_spec k other) as [->|Hne];
      rewrite !fmap_cons, !elem_of_cons; simpl; [|rewrite IH]; tauto.
Qed.

(** On every table with DateTime, Hour and Day columns the function
    leaves a Day_cat column in the table of the caller. *)
Lemma time_analysis_adds_day_cat (df : table) (hour day : column) :
  has_column "DateTime" df = true ->
  get_column "Hour" df = Some hour ->
  get_column "Day" df = Some day ->
  has_column "Day_cat" (perform_time_analysis df).2 = true.
Proof.
  intros Hdt Hhour Hday.
  destruct (time_analysis_returns df hour Hdt Hhour) as (result & -> & _).
  simpl. unfold with_month_cat, with_day_cat. rewrite Hday.
  rewrite get_column_set_column_ne by done.
  assert (Hcat : has_column "Day_cat"
                   (set_column "Day_cat" (as_categorical day_order day) df) = true).
  { apply has_column_set_column. by right. }
  destruct (get_column "Month" df) as [month|]; [|done].
  destruct (1 <? nunique month)%nat; [|done].
  apply has_column_set_column. by left.
Qed.

(** C9.  The Temporal Aggregator changes the table it is given: after
    the call the table of the caller has the columns Day_cat and
    Month_cat, which it did not have. *)
Theorem time_analysis_changes_input :
  (perform_time_analysis prepared_example).2
  = (prepared_example
       ++ [("Day_cat",
            Categorical day_order [Some "Wednesday"; Some "Wednesday"; Some "Monday"]);
           ("Month_cat",
            Categorical month_order [Some "March"; Some "March"; Some "April"])])%list
  /\ (perform_time_analysis prepared_example).2 <> prepared_example.
Proof.
  destruct (time_analysis_returns prepared_example _ eq_refl eq_refl)
    as (result & -> & _).
  split; [reflexivity | discriminate].
Qed.

(** ** The Composite Index Calculator *)

Lemma normalize_raises df normalized p e :
  normalize df normalized p = Raises e -> kind e <> ValueError.
Proof.
  unfold normalize, getitem.
  destruct (get_column p df) as [[v| |]|]; simpl.
  - destruct (series_max v), (series_min v); try done.
    by destruct (Qlt_bool _ _).
  - by intros [= <-].
  - by intros [= <-].
  - by intros [= <-].
Qed.

Lemma normalize_all_raises df ps : forall normalized e,
  normalize_all df normalized ps = Raises e -> kind e <> ValueError.
Proof.
  induction ps as [|p ps IH]; intros normalized e; simpl; [done|].
  destruct (normalize df normalized p) as [f|e'] eqn:Hp; simpl.
  - apply IH.
  - intros [= <-]. by eapply normalize_raises.
Qed.

Lemma normalize_returns df normalized p v :
  get_column p df = Some (Numeric v) ->
  exists f, normalize df normalized p = Returns f.
Proof.
  intros Hp. unfold normalize, getitem. rewrite Hp. simpl.
  destruct (series_max v), (series_min v); eauto.
  destruct (Qlt_bool _ _); eauto.
Qed.

Lemma normalize_all_returns df ps : forall normalized,
  (forall p, p ∈ ps -> exists v, get_column p df = Some (Numeric v)) ->
  exists f, normalize_all df normalized ps = Returns f.
Proof.
  induction ps as [|p ps IH]; intros normalized Hps; simpl; [by eauto|].
  destruct (Hps p) as [v Hv]; [by left|].
  destruct (normalize_returns df normalized p v Hv) as [f ->]. simpl.
  apply IH. intros q Hq. apply Hps. by right.
Qed.

Lemma reindex_length {A} n (v : list (option A)) : length (reindex n v) = n.
Proof. unfold reindex. by rewrite length_fmap, length_seq. Qed.

Lemma available_spec (df : table) (p : string) :
  p ∈ available_pollutants df <-> p ∈ key_pollutants /\ has_column p df = true.
Proof.
  unfold available_pollutants. rewrite !list_elem_of_In. apply filter_In.
Qed.

(** C4, as amended.  For a table with a DateTime column the function
    raises its ValueError, the ConfigurationError of the specification,
    exactly when none of the four candidate fields is a column; when one
    is, and the candidate columns are numeric, it returns a table with
    the DateTime column and an AQI column of as many rows. *)
Theorem index_error_rule (df : table) :
  has_column "DateTime" df = true ->
  (calculate_aqi df = Raises no_pollutants <->
   forall p, p ∈ key_pollutants -> has_column p df = false) /\
  ((exists p, p ∈ key_pollutants /\ has_column p df = true) ->
   (forall p c, p ∈ key_pollutants -> get_column p df = Some c -> is_numeric c = true) ->
   exists stamps scores,
     get_column "DateTime" df = Some stamps /\
     calculate_aqi df = Returns [("DateTime", stamps); ("AQI", Numeric scores)] /\
     length scores = column_length stamps).
Proof.
  intros Hdt. apply has_column_is_Some in Hdt as [stamps Hstamps].
  unfold calculate_aqi, getitem. rewrite Hstamps.
  pose proof (available_spec df) as Havail.
  destruct (available_pollutants df) as [|p ps]; simpl.
  - split.
    + split; [|done]. intros _ q Hq.
      destruct (has_column q df) eqn:Hhas; [|done].
      exfalso. apply (not_elem_of_nil q), Havail. done.
    + intros (q & Hq & Hhas) _.
      exfalso. apply (not_elem_of_nil q), Havail. done.
  - assert (Hp : p ∈ key_pollutants ∧ has_column p df = true)
      by (apply Havail; by left).
    split.
    + split.
      * destruct (normalize df [] p) as [f|e] eqn:Hrun; simpl.
        -- destruct (normalize_all df f ps) as [f'|e] eqn:Hrest; simpl; [done|].
           intros [= ->]. by apply normalize_all_raises in Hrest.
        -- intros [= ->]. by apply normalize_raises in Hrun.
      * intros Hnone. destruct Hp as [Hp Hhas]. rewrite (Hnone p Hp) in Hhas. done.
    + intros _ Hnum.
      destruct (normalize_all_returns df (p :: ps) []) as [f Hrun].
      { intros q [Hq Hhas]%Havail.
        apply has_column_is_Some in Hhas as [c Hc].
        specialize (Hnum q c Hq Hc). destruct c; try done. eauto. }
      simpl in Hrun. rewrite Hrun. simpl. eexists _, _. split; [done|]. split; [done|].
      apply reindex_length.
Qed.

Lemma index_error_rule_witness :
  (calculate_aqi index_example = Raises no_pollutants <->
   forall p, p ∈ key_pollutants -> has_column p index_example = false) /\
  ((exists p, p ∈ key_pollutants /\ has_column p index_example = true) ->
   (forall p c, p ∈ key_pollutants -> get_column p index_example = Some c ->
                is_numeric c = true) ->
   exists stamps scores,
     get_column "DateTime" index_example = Some stamps /\
     calculate_aqi index_example
     = Returns [("DateTime", stamps); ("AQI", Numeric scores)] /\
     length scores = column_length stamps).
Proof. apply (index_error_rule index_example). reflexivity. Defined.

(** C4, as stated, fails: a candidate field is present, and the function
    raises the KeyError of [df['DateTime']] instead of returning. *)
Lemma index_error_claim_fails : ~ index_error_claim unstamped_example.
Proof.
  intros [_ Hreturns]. destruct Hreturns as [t Ht]; [|done].
  exists "CO(GT)". split; [|done]. by left.
Qed.

(** *** The range of the scores *)

Lemma Qlt_bool_iff (a b : Q) : Qlt_bool a b = true <-> (a < b)%Q.
Proof.
  unfold Qlt_bool. rewrite negb_true_iff. split.
  - intros H. apply Qnot_le_lt. intros Hle. apply Qle_bool_iff in Hle. congruence.
  - intros H. destruct (Qle_bool b a) eqn:Hle; [|done].
    apply Qle_bool_iff in Hle. exfalso. by apply (Qlt_not_le a b).
Qed.

Lemma Qlt_bool_false (a b : Q) : Qlt_bool a b = false <-> (b <= a)%Q.
Proof.
  unfold Qlt_bool. rewrite negb_false_iff. apply Qle_bool_iff.
Qed.



Lemma elem_of_dropna {A} (v : list (option A)) (x : A) : x ∈ dropna v <-> Some x ∈ v.
Proof.
  unfold dropna. rewrite list_elem_of_omap. split.
  - by intros ([y|] & Hy & [= ->]).
  - intros Hx. by exists (Some x).
Qed.












(** *** The scores of the specification *)


Lemma set_column_fresh {C} (name : string) (c : C) (f : list (string * C)) :
  name ∉ f.*1 -> set_column name c f = (f ++ [(name, c)])%list.
Proof.
  induction f as [|[k old] f IH]; simpl; [done|].
  rewrite not_elem_of_cons. intros [Hne Hf].
  destruct (String.eqb_spec k name); [congruence|]. by rewrite IH.
Qed.








Lemma candidate_values (df : table) (p : string) :
  candidates_numeric df = true -> p ∈ available_pollutants df ->
  get_column p df = Some (Numeric (numeric_values df p)).
Proof.
  unfold candidates_numeric. rewrite forallb_forall.
  intros Hnum [Hp [c Hc]%has_column_get_column]%available_spec.
  apply list_elem_of_In, Hnum in Hp. unfold numeric_values. rewrite Hc in *.
  by destruct c.
Qed.





Example index_example_scores :
  scores (calculate_aqi index_example) = Some [Some 100%Q; Some 0%Q; Some 100%Q].
Proof. reflexivity. Qed.

(** C2.  The field CO(GT) is present in both rows and its maximum equals
    its minimum, so its normalized value is to be 0 in both rows and
    both scores are to be 0, as [spec_scores] has them.  The scalar 0 is
    assigned to a frame that has no rows yet: the column gets no row,
    and both scores are absent. *)
Theorem constant_field_scores_absent :
  calculate_aqi constant_example
  = Returns
      [("DateTime", Text [Some "2004-03-10 18:00:00"; Some "2004-03-10 19:00:00"]);
       ("AQI", Numeric [None; None])]
  /\ spec_scores constant_example = [Some 0%Q; Some 0%Q]
  /\ normalize constant_example [] "CO(GT)" = Returns [("CO(GT)", [])].
Proof. repeat split; reflexivity. Qed.

(** C10.  The field that is absent throughout takes the branch of the
    field that does not vary, and as there the scalar 0 reaches no row:
    every score is absent, not the 0 of [spec_scores]. *)
Theorem absent_field_scores_absent :
  calculate_aqi absent_example
  = Returns
      [("DateTime", Text [Some "2004-03-10 18:00:00"; Some "2004-03-10 19:00:00";
                          Some "2004-03-10 20:00:00"]);
       ("AQI", Numeric [None; None; None])]
  /\ spec_scores absent_example = [Some 0%Q; Some 0%Q; Some 0%Q]
  /\ normalize absent_example [] "CO(GT)" = Returns [("CO(GT)", [])].
Proof. repeat split; reflexivity. Qed.

(** Once a field that varies has given the frame its rows, the scalar 0
    is broadcast: here NO2(GT) is absent throughout and contributes 0 to
    the row in which NOx(GT) is absent.  With the two fields in the
    other order of [key_pollutants] the same row has no score. *)
Example absent_field_after_series :
  scores (calculate_aqi
            [("DateTime", Text [Some "t0"; Some "t1"; Some "t2"]);
             ("NOx(GT)", Numeric [Some 166%Q; None; Some 131%Q]);
             ("NO2(GT)", Numeric [None; None; None])])
  = Some [Some 100%Q; Some 0%Q; Some 0%Q].
Proof. reflexivity. Qed.

Example absent_field_before_series :
  scores (calculate_aqi
            [("DateTime", Text [Some "t0"; Some "t1"; Some "t2"]);
             ("CO(GT)", Numeric [None; None; None]);
             ("NOx(GT)", Numeric [Some 166%Q; None; Some 131%Q])])
  = Some [Some 100%Q; None; Some 0%Q].
Proof. reflexivity. Qed.

(** ** The Outlier Detector *)

(** The comparison of the squares is the comparison of the score with
    the threshold. *)
Lemma exceeds_is_score_comparison (threshold : Q) (z : zscore) :
  (0 <= threshold)%Q -> (0 <= deviation z)%Q -> (0 < variance z)%Q ->
  exceeds threshold z = true
  <-> (Q2R threshold < Q2R (deviation z) / sqrt (Q2R (variance z)))%R.
Proof.
  intros Ht Hd Hv. unfold exceeds. rewrite Qlt_bool_iff.
  apply Qle_Rle in Ht, Hd. apply Qlt_Rlt in Hv.
  rewrite RMicromega.Q2R_0 in Ht, Hd, Hv.
  assert (Hreal :
    (threshold * threshold * variance z < deviation z * deviation z)%Q
    <-> (Q2R threshold * Q2R threshold * Q2R (variance z)
         < Q2R (deviation z) * Q2R (deviation z))%R).
  { split; intros H.
    - apply Qlt_Rlt in H. by rewrite !Q2R_mult in H.
    - apply Rlt_Qlt. by rewrite !Q2R_mult. }
  rewrite Hreal. clear Hreal.
  generalize dependent (Q2R (variance z)). intros V HV.
  generalize dependent (Q2R (deviation z)). intros D HD.
  generalize dependent (Q2R threshold). intros T HT.
  assert (Hs : (0 < sqrt V)%R) by by apply sqrt_lt_R0.
  assert (Hss : (sqrt V * sqrt V = V)%R) by (apply sqrt_sqrt; Lra.lra).
  generalize dependent (sqrt V). intros s Hs <-.
  assert (Hdiv : (D / s * s = D)%R) by (field; Lra.lra).
  assert (Hsquare : (T * T * (s * s) = (T * s) * (T * s))%R) by ring.
  rewrite Hsquare. split; intros H.
  - apply (Rmult_lt_reg_r s); [exact Hs|]. rewrite Hdiv.
    apply Rnot_le_lt. intros Hle.
    assert ((D * D <= (T * s) * (T * s))%R) by (apply Rmult_le_compat; Lra.lra).
    Lra.lra.
  - apply (Rmult_lt_compat_r s) in H; [|exact Hs]. rewrite Hdiv in H.
    assert ((0 <= T * s)%R) by (apply Rmult_le_pos; Lra.lra).
    apply Rmult_le_0_lt_compat; Lra.lra.
Qed.

(** C3, as stated, fails: no row is flagged. *)
Lemma spike_claim_fails : ~ spike_claim.
Proof. unfold spike_claim. vm_compute. discriminate. Qed.

(** C3, as amended.  In the column [1, 1, 1, 1, 100] the deviation of
    100 from the mean is twice the standard deviation: its standard
    score is 2, no score exceeds 3, and the detector flags no row for
    the column, whether the column is named or all numeric columns are
    checked. *)
Theorem spike_not_flagged :
  over_three (abs_zscores spike) = [false; false; false; false; false] /\
  (forall z, abs_zscores spike !! 4 = Some (Some z) ->
             (deviation z * deviation z == 4 * variance z)%Q) /\
  flagged_rows (detect_outliers spike_example (Some ["x"])) "x" = [] /\
  flagged_rows (detect_outliers spike_example None) "x" = [].
Proof.
  split; [by vm_compute|]. split; [|split; by vm_compute].
  intros z [= <-]. by vm_compute.
Qed.

(** * Further properties *)

(** ** More on the Loader *)

Lemma rstrip_ends (ch : Ascii.ascii) (s : string) : ends_with ch (rstrip ch s) = false.
Proof.
  induction s as [|c s IH]; simpl; [done|].
  destruct (rstrip ch s) as [|c' r] eqn:Hr.
  - destruct (Ascii.eqb c ch) eqn:Hc; simpl; [done | by rewrite Hc].
  - simpl in *. exact IH.
Qed.

Lemma rstrip_fixed (ch : Ascii.ascii) (s : string) :
  ends_with ch s = false -> rstrip ch s = s.
Proof.
  induction s as [|c s IH]; simpl; [done|].
  destruct s as [|c' s'].
  - simpl. by intros ->.
  - intros Hs. rewrite (IH Hs). done.
Qed.

Lemma replace_sentinels_columns (df : table) : columns (replace_sentinels df) = columns df.
Proof.
  unfold columns, replace_sentinels. rewrite <- list_fmap_compose.
  apply list_fmap_ext. intros _ [name c] _. simpl. by destruct (is_date_or_time name).
Qed.

Lemma drop_unnamed_elem (df : table) (name : string) (c : column) :
  (name, c) ∈ drop_unnamed df <-> (name, c) ∈ df /\ String.prefix "Unnamed" name = false.
Proof.
  unfold drop_unnamed. rewrite !list_elem_of_In, filter_In.
  by rewrite negb_true_iff.
Qed.

Lemma kept_names (df : table) (name : string) :
  name ∈ columns (drop_unnamed (strip_headers df)) ->
  ends_with ";"%char name = false /\ String.prefix "Unnamed" name = false.
Proof.
  unfold columns. intros ([n c] & -> & Hin)%list_elem_of_fmap. simpl.
  apply drop_unnamed_elem in Hin as [Hin Hprefix]. split; [|done].
  unfold strip_headers in Hin. apply list_elem_of_fmap in Hin as ([n0 c0] & [= -> _] & _).
  apply rstrip_ends.
Qed.

(** X3.  The header of the table that the Loader returns is clean: no column
    name ends with the separator and none is a placeholder of
    [read_csv]. *)
Theorem loader_cleans_header (read_csv : string -> outcome table)
  (file_path : string) (out : table) (name : string) :
  load_and_clean_data read_csv file_path = Returns out ->
  has_column name out = true ->
  ends_with ";"%char name = false /\ String.prefix "Unnamed" name = false.
Proof.
  unfold load_and_clean_data, has_column.
  destruct (read_csv file_path) as [df|e]; [|done].
  intros [= <-]. rewrite bool_decide_eq_true, replace_sentinels_columns.
  apply kept_names.
Qed.

Lemma replace_sentinel_twice (c : column) :
  replace_sentinel (replace_sentinel c) = replace_sentinel c.
Proof.
  destruct c as [v| |]; simpl; try done. f_equal.
  rewrite <- list_fmap_compose. apply list_fmap_ext. intros _ [x|] _; simpl; [|done].
  destruct (Qeq_bool x sentinel) eqn:Hx; [done|]. by rewrite Hx.
Qed.

Lemma replace_sentinels_twice (df : table) :
  replace_sentinels (replace_sentinels df) = replace_sentinels df.
Proof.
  unfold replace_sentinels. rewrite <- list_fmap_compose.
  apply list_fmap_ext. intros _ [name c] _. simpl.
  destruct (is_date_or_time name) eqn:Hname; simpl; rewrite Hname; [done|].
  by rewrite replace_sentinel_twice.
Qed.

Lemma strip_headers_fixed (df : table) :
  (forall name, name ∈ columns df -> ends_with ";"%char name = false) ->
  strip_headers df = df.
Proof.
  unfold strip_headers, columns. induction df as [|[name c] df IH]; intros Hdf; [done|].
  rewrite fmap_cons. rewrite IH.
  - simpl. rewrite rstrip_fixed; [done|]. apply Hdf. by left.
  - intros n Hn. apply Hdf. by right.
Qed.

Lemma drop_unnamed_fixed (df : table) :
  (forall name, name ∈ columns df -> String.prefix "Unnamed" name = false) ->
  drop_unnamed df = df.
Proof.
  unfold drop_unnamed, columns. induction df as [|[name c] df IH]; intros Hdf; [done|].
  simpl. rewrite (Hdf name) by by left. simpl. rewrite IH; [done|].
  intros n Hn. apply Hdf. by right.
Qed.

(** X4.  Cleaning is idempotent: a table that the Loader has returned comes
    back unchanged when it is loaded again. *)
Theorem loader_idempotent (read_csv : string -> outcome table)
  (file_path again : string) (out : table) :
  load_and_clean_data read_csv file_path = Returns out ->
  load_and_clean_data (fun _ => Returns out) again = Returns out.
Proof.
  unfold load_and_clean_data. destruct (read_csv file_path) as [df|e]; [|done].
  intros [= <-]. f_equal.
  set (kept := drop_unnamed (strip_headers df)).
  assert (Hnames : forall name, name ∈ columns (replace_sentinels kept) ->
            ends_with ";"%char name = false /\ String.prefix "Unnamed" name = false).
  { intros name. rewrite replace_sentinels_columns. apply kept_names. }
  rewrite strip_headers_fixed by (intros name Hn; by apply Hnames).
  rewrite drop_unnamed_fixed by (intros name Hn; by apply Hnames).
  apply replace_sentinels_twice.
Qed.

Lemma loader_cleans_header_witness :
  ends_with ";"%char "CO(GT)" = false /\ String.prefix "Unnamed" "CO(GT)" = false.
Proof.
  apply (loader_cleans_header (fun _ => Returns raw_example) "AirQualityUCI.csv"
           loaded_example "CO(GT)"); reflexivity.
Defined.

Lemma loader_idempotent_witness :
  load_and_clean_data (fun _ => Returns loaded_example) "again.csv" = Returns loaded_example.
Proof.
  apply (loader_idempotent (fun _ => Returns raw_example) "AirQualityUCI.csv").
  reflexivity.
Defined.

(** ** More on the Imputer *)

Lemma next_valid_elem (l : list (option Q)) (e : nat) (b : Q) :
  next_valid l = Some (e, b) -> Some b ∈ l.
Proof.
  revert e. induction l as [|[x|] l IH]; intros e; simpl; [done| |].
  - intros [= _ ->]. by left.
  - destruct (next_valid l) as [[d y]|]; [|done].
    intros [= _ ->]. right. by eapply IH.
Qed.

Lemma next_valid_None (l : list (option Q)) (x : Q) :
  next_valid l = None -> Some x ∉ l.
Proof.
  induction l as [|[y|] l IH]; simpl; [intros _; apply not_elem_of_nil|done|].
  destruct (next_valid l) as [[d y]|]; [done|].
  intros _. rewrite not_elem_of_cons. split; [done | by apply IH].
Qed.

(** With a valid value behind or ahead, interpolation in both directions
    fills every cell. *)
Lemma interpolate_from_full (l : list (option Q)) : forall prev,
  is_Some prev \/ (exists x, Some x ∈ l) -> None ∉ interpolate_from prev l.
Proof.
  induction l as [|[x|] l IH]; intros prev Hvalid; simpl.
  - apply not_elem_of_nil.
  - rewrite not_elem_of_cons. split; [done|]. apply IH. left. by eexists.
  - rewrite not_elem_of_cons. split.
    + destruct prev as [[d a]|].
      * by destruct (next_valid l) as [[e b]|].
      * destruct Hvalid as [[? [=]]|[x Hx]].
        apply elem_of_cons in Hx as [[=]|Hx].
        destruct (next_valid l) as [[e b]|] eqn:Hnext; [done|].
        by apply (next_valid_None l x) in Hnext.
    + apply IH. destruct prev as [[d a]|]; [left; by eexists|].
      right. destruct Hvalid as [[? [=]]|[x Hx]].
      apply elem_of_cons in Hx as [[=]|Hx]. by exists x.
Qed.

Lemma all_absent_or_valid {A} (l : list (option A)) :
  Forall (fun cell => cell = None) l \/ exists x, Some x ∈ l.
Proof.
  induction l as [|[x|] l IH].
  - by left.
  - right. exists x. by left.
  - destruct IH as [IH|[x Hx]]; [left; by constructor|].
    right. exists x. by right.
Qed.

Lemma interpolate_from_absent (l : list (option Q)) :
  Forall (fun cell => cell = None) l -> interpolate_from None l = l.
Proof.
  induction 1 as [|cell l -> Hl IH]; simpl; [done|]. rewrite IH.
  destruct (next_valid l) as [[e b]|] eqn:Hnext; [|done].
  apply next_valid_elem in Hnext. rewrite Forall_forall in Hl.
  by specialize (Hl _ Hnext).
Qed.

Lemma ffill_from_absent {A} (l : list (option A)) :
  Forall (fun cell => cell = None) l -> ffill_from None l = l.
Proof. induction 1 as [|cell l -> Hl IH]; simpl; [done|]. by rewrite IH. Qed.

Lemma bfill_absent {A} (l : list (option A)) :
  Forall (fun cell => cell = None) l -> bfill l = l.
Proof.
  induction 1 as [|cell l -> Hl IH]; simpl; [done|]. rewrite IH.
  destruct Hl as [|c l' -> _]; done.
Qed.

Lemma mean_absent (l : list (option Q)) :
  Forall (fun cell => cell = None) l -> mean l = None.
Proof.
  intros Hl. unfold mean.
  assert (Hdrop : dropna l = []).
  { induction Hl as [|cell l -> _ IH]; [done|]. exact IH. }
  by rewrite Hdrop.
Qed.

(** The chain of one column is its first step: forward fill, backward
    fill and the fill with the mean find nothing left to fill. *)
Lemma impute_interpolate (v : list (option Q)) : impute v = interpolate v.
Proof.
  unfold impute, ffill, interpolate.
  destruct (all_absent_or_valid v) as [Habsent|Hvalid].
  - rewrite (interpolate_from_absent v Habsent), (ffill_from_absent v Habsent),
      (bfill_absent v Habsent), (mean_absent v Habsent). done.
  - assert (Hfull : None ∉ interpolate_from None v)
      by (apply interpolate_from_full; by right).
    rewrite (ffill_from_populated None _ Hfull), (bfill_populated _ Hfull).
    by apply fillna_populated.
Qed.




(** Scanning a prefix leaves a state that does not depend on what
    follows a valid entry. *)
Lemma interpolate_from_after (pre : list (option Q)) (a : Q) : forall prev tail i,
  interpolate_from prev (pre ++ Some a :: tail) !! (length pre + i)%nat
  = (Some a :: interpolate_from (Some (1%nat, a)) tail) !! i.
Proof.
  induction pre as [|[x|] pre IH]; intros prev tail i; simpl; [done| |]; apply IH.
Qed.

Lemma next_valid_gap (k : nat) (b : Q) (post : list (option Q)) :
  next_valid (replicate k None ++ Some b :: post) = Some (k, b).
Proof. induction k as [|k IH]; simpl; [done|]. by rewrite IH. Qed.


Lemma interpolate_from_trailing (k : nat) (a : Q) : forall d,
  interpolate_from (Some (d, a)) (replicate k None) = replicate k (Some a).
Proof.
  induction k as [|k IH]; intros d; simpl; [done|]. rewrite IH.
  assert (Hnext : next_valid (replicate k None) = None).
  { clear. induction k as [|k IH]; simpl; [done|]. by rewrite IH. }
  by rewrite Hnext.
Qed.

Lemma interpolate_from_leading (k : nat) (a : Q) (rest : list (option Q)) :
  interpolate_from None (replicate k None ++ Some a :: rest)
  = (replicate k (Some a) ++ Some a :: interpolate_from (Some (1%nat, a)) rest)%list.
Proof.
  induction k as [|k IH]; simpl; [done|]. by rewrite next_valid_gap, IH.
Qed.

(** What the Imputer returns for a column of readings. *)
Lemma handle_missing_values_column (df out : table) (i : nat) (name : string)
  (v : list (option Q)) :
  handle_missing_values df = Returns out ->
  df !! i = Some (name, Numeric v) ->
  is_date_or_time name = false ->
  out !! i = Some (name, Numeric (interpolate v)).
Proof.
  intros Hrun Hi Hname.
  rewrite handle_missing_values_returns in Hrun
    by by eapply handle_missing_values_readings.
  injection Hrun as <-. rewrite list_lookup_fmap, Hi. simpl.
  by rewrite Hname, impute_interpolate.
Qed.

Example gap_example_run : handle_missing_values gap_example = Returns gap_example_out.
Proof. reflexivity. Qed.

(** After interpolation in both directions the later steps have nothing
    to do. *)
Lemma fill_steps_idle (v : list (option Q)) :
  ffill (interpolate v) = interpolate v /\
  bfill (interpolate v) = interpolate v /\
  fillna (mean (interpolate v)) (interpolate v) = interpolate v.
Proof.
  unfold ffill, interpolate.
  destruct (all_absent_or_valid v) as [Habsent|Hvalid].
  - rewrite (interpolate_from_absent v Habsent), (ffill_from_absent v Habsent),
      (bfill_absent v Habsent), (mean_absent v Habsent). done.
  - assert (Hfull : None ∉ interpolate_from None v)
      by (apply interpolate_from_full; by right).
    rewrite (ffill_from_populated None _ Hfull), (bfill_populated _ Hfull).
    by rewrite (fillna_populated _ _ Hfull).
Qed.

(** X5.  The Imputer is its first step: in every column of readings that it
    returns, the cells are those of the linear interpolation of the
    input column; the forward fill, the backward fill and the fill with
    the mean of lines 55 to 61 change no cell. *)
Theorem imputer_is_interpolation (df out : table) (i : nat) (name : string)
  (v : list (option Q)) :
  handle_missing_values df = Returns out ->
  df !! i = Some (name, Numeric v) ->
  is_date_or_time name = false ->
  out !! i = Some (name, Numeric (interpolate v)) /\
  ffill (interpolate v) = interpolate v /\
  bfill (interpolate v) = interpolate v /\
  fillna (mean (interpolate v)) (interpolate v) = interpolate v.
Proof.
  intros Hrun Hi Hname.
  split; [by apply (handle_missing_values_column df) | apply fill_steps_idle].
Qed.

Lemma imputer_is_interpolation_witness :
  gap_example_out !! 1%nat
  = Some ("T", Numeric (interpolate [None; Some 11%Q; None; None; Some 14%Q; None])) /\
  ffill (interpolate [None; Some 11%Q; None; None; Some 14%Q; None])
  = interpolate [None; Some 11%Q; None; None; Some 14%Q; None] /\
  bfill (interpolate [None; Some 11%Q; None; None; Some 14%Q; None])
  = interpolate [None; Some 11%Q; None; None; Some 14%Q; None] /\
  fillna (mean (interpolate [None; Some 11%Q; None; None; Some 14%Q; None]))
         (interpolate [None; Some 11%Q; None; None; Some 14%Q; None])
  = interpolate [None; Some 11%Q; None; None; Some 14%Q; None].
Proof.
  apply (imputer_is_interpolation gap_example gap_example_out 1 "T"); reflexivity.
Defined.

(** X6.  The Imputer never changes a reading that was reported. *)
Theorem imputer_keeps_readings (df out : table) (i j : nat) (name : string)
  (v : list (option Q)) (x : Q) :
  handle_missing_values df = Returns out ->
  df !! i = Some (name, Numeric v) ->
  is_date_or_time name = false ->
  v !! j = Some (Some x) ->
  exists v', out !! i = Some (name, Numeric v') /\ v' !! j = Some (Some x).
Proof.
  intros Hrun Hi Hname Hj. exists (interpolate v).
  split; [by apply (handle_missing_values_column df) | by apply interpolate_from_keeps].
Qed.

Lemma imputer_keeps_readings_witness :
  exists v', gap_example_out !! 1%nat = Some ("T", Numeric v') /\
             v' !! 4%nat = Some (Some 14%Q).
Proof.
  apply (imputer_keeps_readings gap_example gap_example_out 1 4 "T"
           [None; Some 11%Q; None; None; Some 14%Q; None]); reflexivity.
Defined.






(** X9.  At the two ends of a column the Imputer repeats the nearest reading:
    the cells before the first reading take its value, the cells after
    the last reading take the value of the last. *)
Theorem imputer_pads_ends (df out : table) (i : nat) (name : string)
  (v : list (option Q)) :
  handle_missing_values df = Returns out ->
  df !! i = Some (name, Numeric v) ->
  is_date_or_time name = false ->
  exists v',
    out !! i = Some (name, Numeric v') /\
    (forall k a rest j,
        v = (replicate k None ++ Some a :: rest)%list -> (j < k)%nat ->
        v' !! j = Some (Some a)) /\
    (forall pre a k j,
        v = (pre ++ Some a :: replicate k None)%list -> (j < k)%nat ->
        v' !! (length pre + S j)%nat = Some (Some a)).
Proof.
  intros Hrun Hi Hname. exists (interpolate v).
  split; [by apply (handle_missing_values_column df)|]. split.
  - intros k a rest j -> Hj. unfold interpolate. rewrite interpolate_from_leading.
    rewrite lookup_app_l by (by rewrite length_replicate).
    by apply lookup_replicate_2.
  - intros pre a k j -> Hj. unfold interpolate.
    rewrite interpolate_from_after, interpolate_from_trailing. simpl.
    by apply lookup_replicate_2.
Qed.

Lemma imputer_pads_ends_witness :
  exists v',
    gap_example_out !! 1%nat = Some ("T", Numeric v') /\
    (forall k a rest j,
        [None; Some 11%Q; None; None; Some 14%Q; None]
        = (replicate k None ++ Some a :: rest)%list -> (j < k)%nat ->
        v' !! j = Some (Some a)) /\
    (forall pre a k j,
        [None; Some 11%Q; None; None; Some 14%Q; None]
        = (pre ++ Some a :: replicate k None)%list -> (j < k)%nat ->
        v' !! (length pre + S j)%nat = Some (Some a)).
Proof.
  apply (imputer_pads_ends gap_example gap_example_out 1 "T"); reflexivity.
Defined.

(** X10.  The Imputer keeps the shape of the table: the columns, their order
    and the number of rows stay, and the Date and Time columns are
    returned as they were given. *)
Theorem imputer_keeps_shape (df out : table) :
  handle_missing_values df = Returns out ->
  columns out = columns df /\
  nrows out = nrows df /\
  forall i name c, df !! i = Some (name, c) ->
    exists c', out !! i = Some (name, c') /\
               column_length c' = column_length c /\
               (is_date_or_time name = true -> c' = c).
Proof.
  intros Hrun.
  rewrite handle_missing_values_returns in Hrun
    by by eapply handle_missing_values_readings.
  injection Hrun as <-.
  assert (Hcell : forall name c,
            exists c', imputed (name, c) = (name, c') /\
                       column_length c' = column_length c /\
                       (is_date_or_time name = true -> c' = c)).
  { intros name c. unfold imputed. destruct (is_date_or_time name); [by eauto|].
    destruct c as [v| |]; [|by eauto..].
    eexists. split; [done|]. split; [apply impute_length | done]. }
  split; [|split].
  - unfold columns. rewrite <- list_fmap_compose. apply list_fmap_ext.
    intros _ [name c] _. destruct (Hcell name c) as (c' & Hc' & _).
    unfold compose. by rewrite Hc'.
  - destruct df as [|[name c] df]; [done|]. rewrite fmap_cons.
    destruct (Hcell name c) as (c' & -> & Hlen & _). exact Hlen.
  - intros i name c Hi. destruct (Hcell name c) as (c' & Hc' & Hlen & Hdate).
    exists c'. rewrite list_lookup_fmap, Hi. cbn [fmap option_fmap option_map].
    by rewrite Hc'.
Qed.

Lemma imputer_keeps_shape_witness :
  columns gap_example_out = columns gap_example /\
  nrows gap_example_out = nrows gap_example /\
  forall i name c, gap_example !! i = Some (name, c) ->
    exists c', gap_example_out !! i = Some (name, c') /\
               column_length c' = column_length c /\
               (is_date_or_time name = true -> c' = c).
Proof. apply (imputer_keeps_shape gap_example gap_example_out). reflexivity. Defined.

(** ** More on the Composite Index Calculator *)


Lemma normalize_kind (df : table) (f : numeric_frame) (p : string) (e : exn) :
  has_column p df = true -> normalize df f p = Raises e -> kind e = TypeError.
Proof.
  intros [c Hc]%has_column_is_Some. unfold normalize, getitem. rewrite Hc. simpl.
  destruct c as [v| |]; try by intros [= <-].
  destruct (series_max v), (series_min v); try done. by destruct (Qlt_bool _ _).
Qed.

Lemma normalize_all_kind (df : table) (ps : list string) : forall f e,
  (forall p, p ∈ ps -> has_column p df = true) ->
  normalize_all df f ps = Raises e -> kind e = TypeError.
Proof.
  induction ps as [|p ps IH]; intros f e Hps; simpl; [done|].
  destruct (normalize df f p) as [g|e'] eqn:Hp; simpl.
  - apply IH. intros q Hq. apply Hps. by right.
  - intros [= <-]. eapply normalize_kind; [|exact Hp]. apply Hps. by left.
Qed.

(** X11.  The KeyError of [df['DateTime']] is the only one: the function
    raises a KeyError exactly on the tables without a DateTime column,
    whether or not they have candidate fields, and the lookups of the
    candidate fields never fail. *)
Theorem index_key_error (df : table) :
  (has_column "DateTime" df = false -> calculate_aqi df = Raises (key_error "DateTime")) /\
  (forall e, calculate_aqi df = Raises e -> kind e = KeyError ->
             has_column "DateTime" df = false).
Proof.
  split.
  - intros Hdt. unfold calculate_aqi, getitem.
    destruct (get_column "DateTime" df) as [c|] eqn:Hc; [|done].
    assert (has_column "DateTime" df = true) by (apply has_column_is_Some; by eexists).
    congruence.
  - intros e Hrun Hkind. destruct (has_column "DateTime" df) eqn:Hdt; [|done].
    apply has_column_is_Some in Hdt as [stamps Hstamps].
    unfold calculate_aqi, getitem in Hrun. rewrite Hstamps in Hrun. simpl in Hrun.
    pose proof (available_spec df) as Havail.
    destruct (available_pollutants df) as [|p ps] eqn:Hps.
    + injection Hrun as <-. done.
    + destruct (normalize_all df [] (p :: ps)) as [f|e'] eqn:Hall; [done|].
      simpl in Hrun. injection Hrun as ->.
      apply normalize_all_kind in Hall; [congruence|].
      intros q Hq. by apply Havail.
Qed.

Lemma set_column_rows (name : string) (f : numeric_frame) :
  frame_rows f = 0%nat -> frame_rows (set_column name [] f) = 0%nat.
Proof.
  destruct f as [|[k v] f]; simpl; [done|]. by destruct (String.eqb k name).
Qed.

Lemma normalize_constant (df : table) (f : numeric_frame) (p : string) (v : list (option Q)) :
  get_column p df = Some (Numeric v) -> varies v = false -> frame_rows f = 0%nat ->
  exists f', normalize df f p = Returns f' /\ frame_rows f' = 0%nat.
Proof.
  intros Hp Hv Hrows. unfold normalize, getitem, varies in *. rewrite Hp. simpl.
  assert (Hscalar : frame_rows (set_scalar p 0 f) = 0%nat).
  { unfold set_scalar. rewrite Hrows. by apply set_column_rows. }
  destruct (series_max v), (series_min v); try by eauto.
  rewrite Hv. by eauto.
Qed.

Lemma normalize_all_constant (df : table) (ps : list string) : forall f,
  frame_rows f = 0%nat ->
  (forall p, p ∈ ps -> exists v, get_column p df = Some (Numeric v) /\ varies v = false) ->
  exists f', normalize_all df f ps = Returns f' /\ frame_rows f' = 0%nat.
Proof.
  induction ps as [|p ps IH]; intros f Hrows Hps; simpl; [by eauto|].
  destruct (Hps p) as (v & Hv & Hconst); [by left|].
  destruct (normalize_constant df f p v Hv Hconst Hrows) as (g & -> & Hg). simpl.
  apply IH; [done|]. intros q Hq. apply Hps. by right.
Qed.

Lemma reindex_nil {A} (n : nat) : reindex n ([] : list (option A)) = replicate n None.
Proof.
  unfold reindex. apply list_eq. intros i. rewrite list_lookup_fmap.
  destruct (decide (i < n)) as [Hi|Hi].
  - rewrite lookup_seq_lt by done. simpl. symmetry. by apply lookup_replicate_2.
  - rewrite lookup_seq_ge by lia. simpl. symmetry. apply lookup_ge_None_2.
    rewrite length_replicate. lia.
Qed.

(** X12.  When no candidate field varies, every score is absent: each scalar
    0 is assigned to a frame that still has no rows. *)
Theorem index_absent_without_variation (df : table) (stamps : column)
  (p : string) (ps : list string) :
  get_column "DateTime" df = Some stamps ->
  candidates_numeric df = true ->
  available_pollutants df = p :: ps ->
  no_field_varies df = true ->
  calculate_aqi df
  = Returns [("DateTime", stamps);
             ("AQI", Numeric (replicate (column_length stamps) None))].
Proof.
  intros Hstamps Hnum Havail Hconst. unfold calculate_aqi, getitem, no_field_varies in *.
  rewrite Hstamps. simpl.
  pose proof (fun q => candidate_values df q Hnum) as Hvalues.
  destruct (normalize_all_constant df (available_pollutants df) []) as (f & Hrun & Hrows).
  - done.
  - intros q Hq. eexists. split; [by apply Hvalues|].
    rewrite forallb_forall in Hconst. apply list_elem_of_In, Hconst in Hq.
    by apply negb_true_iff in Hq.
  - rewrite Havail in *. rewrite Hrun. simpl. unfold row_max. rewrite Hrows. simpl.
    by rewrite reindex_nil.
Qed.

Lemma index_absent_without_variation_witness :
  calculate_aqi flat_example
  = Returns [("DateTime", Text [Some "2004-03-10 18:00:00"; Some "2004-03-10 19:00:00"]);
             ("AQI", Numeric (replicate
                (column_length (Text [Some "2004-03-10 18:00:00"; Some "2004-03-10 19:00:00"]))
                None))].
Proof.
  apply (index_absent_without_variation flat_example _ "CO(GT)" ["NOx(GT)"; "NO2(GT)"]);
    reflexivity.
Defined.





(** ** The standard scores of a column *)

Lemma Qsum_nonneg (ws : list Q) : (forall w, w ∈ ws -> (0 <= w)%Q) -> (0 <= Qsum ws)%Q.
Proof.
  induction ws as [|w ws IH]; intros Hws; simpl; [lra|].
  assert (0 <= w)%Q by (apply Hws; by left).
  assert (0 <= Qsum ws)%Q by (apply IH; intros; apply Hws; by right). lra.
Qed.


Lemma Qabs_square (y : Q) : (Qabs y * Qabs y == y * y)%Q.
Proof.
  rewrite <- Qabs_Qmult. apply Qabs_pos. nra.
Qed.






Lemma Qsum_constant (c : Q) (l : list Q) :
  (forall x, x ∈ l -> (x == c)%Q) ->
  (Qsum l == inject_Z (Z.of_nat (length l)) * c)%Q.
Proof.
  induction l as [|x l IH]; intros Hl; simpl Qsum; simpl length.
  - by rewrite Qmult_0_l.
  - rewrite IH by (intros; apply Hl; by right).
    rewrite (Hl x) by by left.
    rewrite Nat2Z.inj_succ. unfold Z.succ. rewrite inject_Z_plus. ring.
Qed.

Lemma Qmean_constant (c : Q) (l : list Q) :
  l <> [] -> (forall x, x ∈ l -> (x == c)%Q) -> (Qmean l == c)%Q.
Proof.
  intros Hne Hl. unfold Qmean. rewrite (Qsum_constant c l Hl).
  assert (0 < inject_Z (Z.of_nat (length l)))%Q.
  { rewrite <- (Zlt_Qlt 0). destruct l; [done | simpl; lia]. }
  field. lra.
Qed.

Lemma population_variance_nonneg (vs : list Q) : (0 <= population_variance vs)%Q.
Proof.
  unfold population_variance, Qmean at 1.
  assert (Hsum : (0 <= Qsum ((fun x => (x - Qmean vs) * (x - Qmean vs))%Q <$> vs))%Q).
  { apply Qsum_nonneg. intros w (x & -> & _)%list_elem_of_fmap.
    rewrite <- Qabs_square. apply Qmult_le_0_compat; apply Qabs_nonneg. }
  set (n := Z.of_nat (length _)).
  destruct (Z.eq_dec n 0%Z) as [->|Hn].
  - unfold Qdiv. change (/ inject_Z 0)%Q with 0%Q. lra.
  - apply Qle_shift_div_l; [rewrite <- (Zlt_Qlt 0); lia | lra].
Qed.

(** X15.  A column whose readings are all the same has no outlier: the
    deviation of every reading is 0, whatever the variance. *)
Theorem constant_column_not_flagged (v : list (option Q)) (c : Q) :
  all_readings c v = true ->
  over_three (abs_zscores v) = replicate (length v) false.
Proof.
  intros Hall.
  assert (Hv : forall x, Some x ∈ v -> (x == c)%Q).
  { unfold all_readings in Hall. rewrite forallb_forall in Hall.
    intros x Hx%list_elem_of_In. apply Hall in Hx. by apply Qeq_bool_iff. }
  clear Hall. unfold over_three, abs_zscores.
  assert (Hmean : forall x, Some x ∈ v -> (x - Qmean (dropna v) == 0)%Q).
  { intros x Hx. rewrite (Qmean_constant c).
    - rewrite (Hv x Hx). ring.
    - apply elem_of_dropna in Hx. intros Hnil. rewrite Hnil in Hx.
      by apply elem_of_nil in Hx.
    - intros y Hy%elem_of_dropna. by apply Hv. }
  pose proof (population_variance_nonneg (dropna v)) as Hvar.
  generalize dependent (population_variance (dropna v)).
  generalize dependent (Qmean (dropna v)). intros m Hmean var Hvar.
  induction v as [|[x|] v IH]; [done| |].
  - rewrite !fmap_cons. cbn [length replicate option_map]. f_equal.
    + apply Qlt_bool_false. cbn [deviation variance].
      rewrite Qabs_square, (Hmean x) by by left. lra.
    + apply IH; intros; [apply Hv | apply Hmean]; by right.
  - rewrite !fmap_cons. cbn [length replicate option_map]. f_equal.
    apply IH; intros; [apply Hv | apply Hmean]; by right.
Qed.

Lemma constant_column_not_flagged_witness :
  over_three (abs_zscores [Some 7%Q; None; Some (14 # 2)%Q; Some 7%Q])
  = replicate (length [Some 7%Q; None; Some (14 # 2)%Q; Some 7%Q]) false.
Proof. apply (constant_column_not_flagged _ 7). reflexivity. Defined.

(** ** The table of the Outlier Detector *)

Lemma detect_outliers_unfold (df : table) (cols : list string) :
  detect_outliers df (Some cols)
  = foldl (annotate df)
      {| index := selected (outlier_mask df cols);
         cells := (fun '(name, c) =>
                     (name, Data (take_column (selected (outlier_mask df cols)) c))) <$> df |}
      cols.
Proof. reflexivity. Qed.












(** X18.  Names that are not numeric columns of the table are skipped: they
    raise nothing and change nothing. *)
Theorem outliers_skip_unchecked (df : table) (columns : list string) :
  detect_outliers df (Some columns)
  = detect_outliers df (Some (List.filter (is_checked df) columns)).
Proof.
  assert (Hskip : forall {S} (step : S -> string -> S),
            (forall s c, is_checked df c = false -> step s c = s) ->
            forall s, foldl step s columns = foldl step s (List.filter (is_checked df) columns)).
  { intros S step Hstep. induction columns as [|c cols IH]; intros s; simpl; [done|].
    destruct (is_checked df c) eqn:Hc; simpl; [apply IH|]. rewrite Hstep by done. apply IH. }
  assert (Hunchecked : forall c, is_checked df c = false -> checked df c = None).
  { intros c Hc. unfold is_checked in Hc. apply bool_decide_eq_false in Hc.
    destruct (checked df c); [destruct Hc; by eexists | done]. }
  rewrite !detect_outliers_unfold. unfold outlier_mask.
  rewrite <- (Hskip _ (fun mask column =>
                match checked df column with
                | Some v => zip_with orb mask (over_three (abs_zscores v))
                | None => mask
                end)) by (intros s c Hc; by rewrite (Hunchecked c Hc)).
  apply Hskip. intros out c Hc. unfold annotate. by rewrite (Hunchecked c Hc).
Qed.


Example outlier_example_rows :
  index (detect_outliers outlier_example (Some ["CO(GT)"])) = [11].
Proof. reflexivity. Qed.

(** ** More on the Temporal Aggregator *)

(** X19.  The function returns exactly on the tables that have the DateTime
    and Hour columns, and when it raises it has not touched the table of
    the caller. *)
Theorem time_analysis_returns_iff (df : table) :
  ((exists result, (perform_time_analysis df).1 = Returns result)
   <-> has_column "DateTime" df = true /\ has_column "Hour" df = true) /\
  (forall e, (perform_time_analysis df).1 = Raises e -> (perform_time_analysis df).2 = df).
Proof.
  destruct (has_column "DateTime" df) eqn:Hdt.
  - destruct (get_column "Hour" df) as [hour|] eqn:Hhour.
    + destruct (time_analysis_returns df hour Hdt Hhour) as (result & Hrun & _).
      rewrite Hrun. simpl. split; [|done]. split; [|by eauto].
      intros _. split; [done|]. apply has_column_is_Some. by eexists.
    + assert (Hno : has_column "Hour" df = false).
      { destruct (has_column "Hour" df) eqn:Hh; [|done].
        apply has_column_is_Some in Hh as [c Hc]. congruence. }
      unfold perform_time_analysis. rewrite Hdt, Hhour, Hno. simpl.
      split; [|done]. split; [by intros [? ?] | by intros [_ ?]].
  - unfold perform_time_analysis. rewrite Hdt. simpl.
    split; [|done]. split; [by intros [? ?] | by intros [? _]].
Qed.

Lemma as_categorical_labels (cats : list string) (c : column) :
  exists v, as_categorical cats c = Categorical cats v /\
            forall k, k ∈ cats -> (Some k ∈ v <-> Some k ∈ labels_of c).
Proof.
  set (restrict := fmap (M := list) (fun cell : option string =>
           match cell with
           | Some s => if bool_decide (s ∈ cats) then Some s else None
           | None => None
           end)).
  assert (Hrestrict : forall (v : list (option string)) k, k ∈ cats ->
            (Some k ∈ restrict v <-> Some k ∈ v)).
  { intros v k Hk. unfold restrict. rewrite list_elem_of_fmap. split.
    - intros ([s|] & Hs & Hin); [|done].
      destruct (bool_decide (s ∈ cats)); [|done]. by injection Hs as ->.
    - intros Hin. exists (Some k). split; [|done]. by rewrite bool_decide_eq_true_2. }
  destruct c as [v|v|cs v]; simpl.
  - eexists. split; [done|]. intros k _. rewrite !list_elem_of_fmap.
    split; by intros (? & [=] & _).
  - exists (restrict v). split; [done|]. apply Hrestrict.
  - exists (restrict v). split; [done|]. apply Hrestrict.
Qed.

(** X20.  The daily table lists the weekdays that occur in the Day column,
    each once, from Monday to Sunday. *)
Theorem daily_table_order (df : table) (hour day : column) :
  has_column "DateTime" df = true ->
  get_column "Hour" df = Some hour ->
  get_column "Day" df = Some day ->
  exists result t ks,
    (perform_time_analysis df).1 = Returns result /\
    result !! "daily" = Some t /\
    get_column "Day" t = Some (Categorical day_order (Some <$> ks)) /\
    ks `sublist_of` day_order /\
    forall k, k ∈ ks <-> k ∈ day_order /\ Some k ∈ labels_of day.
Proof.
  intros Hdt Hhour Hday.
  destruct (time_analysis_returns df hour Hdt Hhour) as (result & Hrun & _ & Hdaily & _).
  rewrite Hday in Hdaily. simpl in Hdaily.
  destruct (as_categorical_labels day_order day) as (v & Hcat & Hv).
  rewrite Hcat in Hdaily.
  eexists result, _, (filter (.∈ dropna v) day_order).
  split; [by rewrite Hrun|]. split; [exact Hdaily|]. split; [done|].
  split; [apply sublist_filter|].
  intros k. rewrite list_elem_of_filter, elem_of_dropna. split.
  - intros [Hk Hin]. split; [done|]. by apply Hv.
  - intros [Hin Hk]. split; [|done]. by apply Hv.
Qed.

Lemma insert_key_elem (x y : Q) (l : list Q) :
  (exists k, k ∈ insert_key Qle_bool Qeq_bool x l /\ (k == y)%Q)
  <-> (x == y)%Q \/ exists k, k ∈ l /\ (k == y)%Q.
Proof.
  induction l as [|z l IH]; simpl.
  - split.
    + intros (k & Hk & Hy). apply list_elem_of_singleton in Hk. subst k. by left.
    + intros [Hx|(k & Hk & _)]; [|by apply elem_of_nil in Hk].
      exists x. split; [by left | done].
  - destruct (Qeq_bool x z) eqn:Heq.
    + apply Qeq_bool_iff in Heq. split; [by right|].
      intros [Hx|?]; [|done]. exists z. split; [by left|]. by rewrite <- Heq.
    + destruct (Qle_bool x z).
      * split.
        -- intros (k & Hk & Hy). apply elem_of_cons in Hk as [Hk|Hk].
           ++ subst k. by left.
           ++ right. by exists k.
        -- intros [Hx|(k & Hk & Hy)].
           ++ exists x. split; [by left | done].
           ++ exists k. split; [by right | done].
      * split.
        -- intros (k & Hk & Hy). apply elem_of_cons in Hk as [Hk|Hk].
           ++ subst k. right. exists z. split; [by left | done].
           ++ destruct (proj1 IH) as [?|(k' & Hk' & Hy')]; [by exists k | by left|].
              right. exists k'. split; [by right | done].
        -- intros [Hx|(k & Hk & Hy)].
           ++ destruct (proj2 IH) as (k & Hk & Hy); [by left|].
              exists k. split; [by right | done].
           ++ apply elem_of_cons in Hk as [Hk|Hk].
              ** subst k. exists z. split; [by left | done].
              ** destruct (proj2 IH) as (k' & Hk' & Hy'); [right; by exists k|].
                 exists k'. split; [by right | done].
Qed.

Lemma insert_key_above (x y : Q) (l : list Q) :
  (y < x)%Q -> Forall (Qlt y) l -> Forall (Qlt y) (insert_key Qle_bool Qeq_bool x l).
Proof.
  intros Hx. induction 1 as [|z l Hz Hl IH]; simpl; [by repeat constructor|].
  destruct (Qeq_bool x z); [by constructor|].
  destruct (Qle_bool x z); repeat constructor; done.
Qed.

Lemma insert_key_sorted (x : Q) (l : list Q) :
  StronglySorted Qlt l -> StronglySorted Qlt (insert_key Qle_bool Qeq_bool x l).
Proof.
  induction 1 as [|z l Hl IH Hz]; simpl; [by repeat constructor|].
  destruct (Qeq_bool x z) eqn:Heq; [by constructor|].
  destruct (Qle_bool x z) eqn:Hle.
  - apply Qle_bool_iff in Hle.
    assert (Hlt : (x < z)%Q).
    { apply Qle_lteq in Hle as [?|Hxz]; [done|].
      apply Qeq_bool_iff in Hxz. congruence. }
    constructor; [by constructor|]. constructor; [done|].
    eapply Forall_impl; [exact Hz|]. intros w Hw. simpl in Hw. lra.
  - constructor; [done|]. apply insert_key_above; [|done].
    apply Qnot_le_lt. intros Hxz. apply Qle_bool_iff in Hxz. congruence.
Qed.

Lemma sorted_unique_sorted (l : list Q) :
  StronglySorted Qlt (sorted_unique Qle_bool Qeq_bool l).
Proof.
  induction l as [|x l IH]; simpl; [constructor | by apply insert_key_sorted].
Qed.

Lemma sorted_unique_elem (l : list Q) (y : Q) :
  (exists k, k ∈ sorted_unique Qle_bool Qeq_bool l /\ (k == y)%Q)
  <-> exists x, x ∈ l /\ (x == y)%Q.
Proof.
  induction l as [|x l IH]; simpl.
  - split; by intros (k & []%elem_of_nil & _).
  - unfold sorted_unique in *. simpl. rewrite insert_key_elem, IH. split.
    + intros [Hx|(k & Hk & Hy)]; [exists x; split; [by left | done]|].
      exists k. split; [by right | done].
    + intros (k & [->|Hk]%elem_of_cons & Hy); [by left|]. right. by exists k.
Qed.

(** X21.  The hourly table has one row for every hour that occurs in the Hour
    column, and its rows are in strictly increasing order of the hour. *)
Theorem hourly_table_order (df : table) (hours : list (option Q)) :
  has_column "DateTime" df = true ->
  get_column "Hour" df = Some (Numeric hours) ->
  exists result t ks,
    (perform_time_analysis df).1 = Returns result /\
    result !! "hourly" = Some t /\
    get_column "Hour" t = Some (Numeric (Some <$> ks)) /\
    StronglySorted Qlt ks /\
    forall h, (exists k, k ∈ ks /\ (k == h)%Q) <-> (exists x, Some x ∈ hours /\ (x == h)%Q).
Proof.
  intros Hdt Hhour.
  destruct (time_analysis_returns df _ Hdt Hhour) as (result & Hrun & Hhourly & _).
  eexists result, _, (sorted_unique Qle_bool Qeq_bool (dropna hours)).
  split; [by rewrite Hrun|]. split; [exact Hhourly|]. split; [done|].
  split; [apply sorted_unique_sorted|].
  intros h. rewrite sorted_unique_elem. split.
  - intros (x & Hx%elem_of_dropna & Hh). by exists x.
  - intros (x & Hx & Hh). exists x. split; [by apply elem_of_dropna | done].
Qed.

Lemma time_analysis_value (df : table) (hour : column) :
  has_column "DateTime" df = true ->
  get_column "Hour" df = Some hour ->
  perform_time_analysis df
  = (Returns (insert_table "monthly" (monthly_table df)
                (insert_table "daily" (daily_table df)
                   (<["hourly" := grouped_mean df (time_analysis_columns df) false
                                    hour "Hour"]> ∅))),
     with_month_cat (with_day_cat df)).
Proof.
  intros Hdt Hhour.
  unfold perform_time_analysis, monthly_table, daily_table, with_month_cat, with_day_cat.
  rewrite Hdt, Hhour. simpl negb. cbv iota.
  fold (time_analysis_columns df).
  destruct (get_column "Day" df) as [day|];
    [rewrite get_column_set_column_ne by done|];
    (destruct (get_column "Month" df) as [month|];
     [destruct (1 <? nunique month)%nat eqn:Hn|]);
    cbn [mbind option_bind insert_table]; rewrite ?Hn; reflexivity.
Qed.

Lemma get_column_set_column (name : string) (c : column) (df : table) :
  get_column name (set_column name c df) = Some c.
Proof.
  induction df as [|[k old] df IH]; simpl.
  - by rewrite String.eqb_refl.
  - destruct (String.eqb_spec k name) as [->|Hne]; simpl.
    + by rewrite String.eqb_refl.
    + destruct (String.eqb_spec k name); [done | exact IH].
Qed.

Lemma set_column_same (name : string) (c : column) (df : table) :
  get_column name df = Some c -> set_column name c df = df.
Proof.
  induction df as [|[k old] df IH]; simpl; [done|].
  destruct (String.eqb_spec k name) as [->|Hne].
  - by intros [= ->].
  - intros Hc. by rewrite IH.
Qed.

Lemma set_column_twice (name : string) (c : column) (df : table) :
  set_column name c (set_column name c df) = set_column name c df.
Proof. apply set_column_same, get_column_set_column. Qed.

Lemma numeric_columns_has (df : table) (col : string) :
  col ∈ numeric_columns df -> has_column col df = true.
Proof.
  unfold numeric_columns, has_column, columns. rewrite bool_decide_eq_true.
  rewrite list_elem_of_omap. intros ([name c] & Hin & Hc).
  destruct c; try done. injection Hc as ->.
  apply list_elem_of_fmap. by exists (col, Numeric v).
Qed.

Lemma numeric_columns_set_column (name : string) (c : column) (df : table) :
  has_column name df = false -> is_numeric c = false ->
  numeric_columns (set_column name c df) = numeric_columns df.
Proof.
  intros Hname Hc. rewrite set_column_fresh.
  - unfold numeric_columns. rewrite omap_app. simpl.
    destruct c; [done | by rewrite app_nil_r..].
  - unfold has_column, columns in Hname. by apply bool_decide_eq_false in Hname.
Qed.

Lemma grouped_mean_ext (df df' : table) (cols : list string) (observed : bool)
  (key : column) (name : string) :
  (forall col, col ∈ cols -> get_column col df' = get_column col df) ->
  grouped_mean df' cols observed key name = grouped_mean df cols observed key name.
Proof.
  intros Hcols. unfold grouped_mean. destruct (groupby observed key) as [keys groups].
  f_equal. induction cols as [|col cols IH]; [done|]. simpl.
  rewrite (Hcols col) by by left.
  assert (Hrest : forall c, c ∈ cols -> get_column c df' = get_column c df)
    by (intros; apply Hcols; by right).
  specialize (IH Hrest).
  destruct (get_column col df) as [[v|v|cats v]|]; simpl.
  all: try (f_equal; exact IH); exact IH.
Qed.

Lemma as_categorical_not_numeric (cats : list string) (c : column) :
  is_numeric (as_categorical cats c) = false.
Proof. by destruct c. Qed.

Lemma get_column_with_day_cat (col : string) (df : table) :
  col ≠ "Day_cat" -> get_column col (with_day_cat df) = get_column col df.
Proof.
  intros Hne. unfold with_day_cat. destruct (get_column "Day" df); [|done].
  by apply get_column_set_column_ne.
Qed.

Lemma get_column_with_month_cat (col : string) (df : table) :
  col ≠ "Month_cat" -> get_column col (with_month_cat df) = get_column col df.
Proof.
  intros Hne. unfold with_month_cat. destruct (get_column "Month" df); [|done].
  destruct (1 <? nunique c)%nat; [|done].
  by apply get_column_set_column_ne.
Qed.

Lemma with_day_cat_twice (df : table) : with_day_cat (with_day_cat df) = with_day_cat df.
Proof.
  unfold with_day_cat at 1. rewrite get_column_with_day_cat by done.
  unfold with_day_cat. destruct (get_column "Day" df); [|done].
  apply set_column_twice.
Qed.

Lemma with_month_cat_twice (df : table) :
  with_month_cat (with_month_cat df) = with_month_cat df.
Proof.
  unfold with_month_cat at 1. rewrite get_column_with_month_cat by done.
  unfold with_month_cat. destruct (get_column "Month" df) as [month|]; [|done].
  destruct (1 <? nunique month)%nat; [|done].
  apply set_column_twice.
Qed.

Lemma with_day_cat_settled (df : table) :
  with_day_cat (with_month_cat (with_day_cat df)) = with_month_cat (with_day_cat df).
Proof.
  unfold with_day_cat at 1.
  rewrite get_column_with_month_cat, get_column_with_day_cat by done.
  destruct (get_column "Day" df) as [day|] eqn:Hday; [|done].
  apply set_column_same. rewrite get_column_with_month_cat by done.
  unfold with_day_cat. rewrite Hday. apply get_column_set_column.
Qed.

Lemma has_column_with_day_cat (col : string) (df : table) :
  col ≠ "Day_cat" -> has_column col (with_day_cat df) = has_column col df.
Proof.
  intros Hne. apply eq_true_iff_eq. rewrite !has_column_is_Some.
  by rewrite get_column_with_day_cat.
Qed.

Lemma numeric_columns_with_day_cat (df : table) :
  has_column "Day_cat" df = false ->
  numeric_columns (with_day_cat df) = numeric_columns df.
Proof.
  intros Hfresh. unfold with_day_cat. destruct (get_column "Day" df); [|done].
  apply numeric_columns_set_column; [done | apply as_categorical_not_numeric].
Qed.

Lemma numeric_columns_with_month_cat (df : table) :
  has_column "Month_cat" df = false ->
  numeric_columns (with_month_cat df) = numeric_columns df.
Proof.
  intros Hfresh. unfold with_month_cat. destruct (get_column "Month" df) as [month|]; [|done].
  destruct (1 <? nunique month)%nat; [|done].
  apply numeric_columns_set_column; [done | apply as_categorical_not_numeric].
Qed.

Lemma time_analysis_columns_has (df : table) (col : string) :
  col ∈ time_analysis_columns df -> has_column col df = true.
Proof.
  unfold time_analysis_columns. intros Hcol%list_elem_of_In.
  apply filter_In in Hcol as [Hcol _]. by apply numeric_columns_has, list_elem_of_In.
Qed.

(** X22.  On the frame that a successful call has left, a second call
    returns the same tables and changes nothing more. *)
Theorem time_analysis_repeatable (df : table) (hour : column) :
  has_column "DateTime" df = true ->
  get_column "Hour" df = Some hour ->
  has_column "Day_cat" df = false ->
  has_column "Month_cat" df = false ->
  perform_time_analysis (perform_time_analysis df).2 = perform_time_analysis df.
Proof.
  intros Hdt Hhour Hday Hmonth.
  rewrite (time_analysis_value df hour Hdt Hhour). cbn [snd].
  set (df' := with_month_cat (with_day_cat df)).
  assert (Hget : forall col, col ≠ "Day_cat" -> col ≠ "Month_cat" ->
                             get_column col df' = get_column col df).
  { intros col H1 H2. unfold df'.
    by rewrite get_column_with_month_cat, get_column_with_day_cat. }
  assert (Hcols : time_analysis_columns df' = time_analysis_columns df).
  { unfold time_analysis_columns, df'. f_equal.
    rewrite numeric_columns_with_month_cat, numeric_columns_with_day_cat; [done..|].
    by rewrite has_column_with_day_cat. }
  assert (Hin : forall col, col ∈ time_analysis_columns df ->
                            col ≠ "Day_cat" /\ col ≠ "Month_cat").
  { intros col Hcol%time_analysis_columns_has. split; intros ->; congruence. }
  assert (Hfix : with_month_cat (with_day_cat df') = df').
  { unfold df'. rewrite with_day_cat_settled. apply with_month_cat_twice. }
  assert (Hfix_day : with_day_cat df' = df').
  { apply with_day_cat_settled. }
  rewrite (time_analysis_value df' hour).
  - rewrite Hfix, Hcols. f_equal. f_equal. f_equal; [|f_equal].
    + unfold monthly_table. rewrite Hfix, Hcols, Hget by done.
      destruct (get_column "Month" df) as [month|]; [|done]. simpl.
      destruct (1 <? nunique month)%nat; done.
    + unfold daily_table. rewrite Hfix_day, Hcols, Hget by done.
      destruct (get_column "Day" df) as [day|]; [|done]. simpl. f_equal.
      apply grouped_mean_ext. intros col [H1 H2]%Hin. unfold df'.
      by apply get_column_with_month_cat.
    + f_equal. apply grouped_mean_ext. intros col [H1 H2]%Hin. by apply Hget.
  - apply has_column_is_Some. rewrite Hget by done. by apply has_column_is_Some.
  - by rewrite Hget.
Qed.

Lemma daily_table_order_witness :
  exists result t ks,
    (perform_time_analysis prepared_example).1 = Returns result /\
    result !! "daily" = Some t /\
    get_column "Day" t = Some (Categorical day_order (Some <$> ks)) /\
    ks `sublist_of` day_order /\
    forall k, k ∈ ks <->
      k ∈ day_order /\
      Some k ∈ labels_of (Text [Some "Wednesday"; Some "Wednesday"; Some "Monday"]).
Proof.
  apply (daily_table_order prepared_example
           (Numeric [Some 18%Q; Some 19%Q; Some 18%Q])
           (Text [Some "Wednesday"; Some "Wednesday"; Some "Monday"])); reflexivity.
Defined.

Lemma hourly_table_order_witness :
  exists result t ks,
    (perform_time_analysis prepared_example).1 = Returns result /\
    result !! "hourly" = Some t /\
    get_column "Hour" t = Some (Numeric (Some <$> ks)) /\
    StronglySorted Qlt ks /\
    forall h, (exists k, k ∈ ks /\ (k == h)%Q)
              <-> (exists x, Some x ∈ [Some 18%Q; Some 19%Q; Some 18%Q] /\ (x == h)%Q).
Proof.
  apply (hourly_table_order prepared_example [Some 18%Q; Some 19%Q; Some 18%Q]);
    reflexivity.
Defined.

Lemma time_analysis_repeatable_witness :
  perform_time_analysis (perform_time_analysis prepared_example).2
  = perform_time_analysis prepared_example.
Proof.
  apply (time_analysis_repeatable prepared_example
           (Numeric [Some 18%Q; Some 19%Q; Some 18%Q])); reflexivity.
Defined.
